(** * Session, token store, HTTP client and permission guards

    A shallow embedding of the authentication core of the React front end:
    - [lib/api-client]: the token store over [localStorage] and the axios
      instance with its request and response interceptors;
    - [services/auth.service]: the calls the session context makes;
    - [contexts/auth.context]: [AuthProvider] (initializeAuth, login, logout)
      and the permission hooks;
    - [components/auth/PermissionGuard].

    Browser storage is a finite map from keys to strings, the backend is an
    arbitrary deterministic machine answering requests, and every effect
    (storage, navigation, console, toasts, network) is a field of an explicit
    world that the functions pass along. *)

From Stdlib Require Import ZArith Bool List Lia.
From stdpp Require Import base option strings gmap.
Import ListNotations.

Local Open Scope string_scope.
Local Open Scope list_scope.

(** ** JavaScript values *)

Module JS.

(** Truthiness of a string: only the empty string is falsy. *)
Definition truthy (s : string) : bool := negb (String.eqb s "").

(** Truthiness of [string | null | undefined]. *)
Definition truthy_opt (o : option string) : bool :=
  match o with
  | Some s => truthy s
  | None => false
  end.

(** [if (o) { k o } else { otherwise }] for [o : string | undefined]. *)
Definition if_truthy {A} (o : option string) (k : string -> A) (otherwise : A) : A :=
  match o with
  | Some s => if truthy s then k s else otherwise
  | None => otherwise
  end.

(** [o || d] where [o : string | undefined] and [d] is a string. *)
Definition or_else (o : option string) (d : string) : string :=
  match o with
  | Some s => if truthy s then s else d
  | None => d
  end.

(** [n || d] on numbers, [n] possibly undefined: 0 is falsy. *)
Definition num_or_else (o : option Z) (d : Z) : Z :=
  match o with
  | Some n => if Z.eqb n 0 then d else n
  | None => d
  end.

(** A value of type [string | undefined] inside a template literal. *)
Definition interpolate (o : option string) : string :=
  match o with
  | Some s => s
  | None => "undefined"
  end.

(** [Array.prototype.includes] on an array of strings. *)
Definition includes (l : list string) (x : string) : bool :=
  existsb (String.eqb x) l.

(** [Array.prototype.some] and [Array.prototype.every]. *)
Definition some {A} (l : list A) (f : A -> bool) : bool := existsb f l.
Definition every {A} (l : list A) (f : A -> bool) : bool := forallb f l.

End JS.

(** ** Types ([types/auth.types], [types/common.types]) *)

Record Role := {
  role_id : Z;
  name : string;
  description : string;
  permissions : list string;
  role_createdAt : string;
  role_updatedAt : string;
}.

Record User := {
  id : Z;
  email : string;
  firstName : string;
  lastName : string;
  roleId : Z;
  role : option Role;
  isActive : bool;
  emailVerified : bool;
  createdAt : string;
  updatedAt : string;
}.

Record LoginRequest := {
  login_email : string;
  login_password : string;
}.

Record AuthResponse := {
  auth_user : User;
  accessToken : string;
  refreshToken : string;
  auth_message : string;
}.

Record ApiError := {
  api_message : string;
  api_status : Z;
  api_code : option string;
  api_details : option string;
}.

(** ** Permission hooks ([contexts/auth.context]) *)

(** The hooks read [user] from the context; the model passes it in. *)

Definition usePermission (user : option User) (permission : string) : bool :=
  match user with
  | None => false
  | Some u =>
    match role u with
    | None => false
    | Some r => JS.includes (permissions r) permission
    end
  end.

Definition useAnyPermission (user : option User) (perms : list string) : bool :=
  match user with
  | None => false
  | Some u =>
    match role u with
    | None => false
    | Some r => JS.some perms (fun permission => JS.includes (permissions r) permission)
    end
  end.

Definition useAllPermissions (user : option User) (perms : list string) : bool :=
  match user with
  | None => false
  | Some u =>
    match role u with
    | None => false
    | Some r => JS.every perms (fun permission => JS.includes (permissions r) permission)
    end
  end.

(** ** PermissionGuard ([components/auth/PermissionGuard]) *)

Record PermissionGuardProps (Node : Type) := {
  permission : option string;
  guard_permissions : option (list string);
  requireAll : bool;
  fallback : Node;
  children : Node;
}.
Arguments permission {Node} _.
Arguments guard_permissions {Node} _.
Arguments requireAll {Node} _.
Arguments fallback {Node} _.
Arguments children {Node} _.

(** The value of the local [hasPermission] when the guard decides. *)
Definition hasPermission {Node} (user : option User)
    (props : PermissionGuardProps Node) : bool :=
  JS.if_truthy (permission props)
    (fun p => usePermission user p)
    match guard_permissions props with
    | Some ps =>
      if (0 <? length ps)%nat then
        if requireAll props then useAllPermissions user ps
        else useAnyPermission user ps
      else false
    | None => false
    end.

Definition PermissionGuard {Node} (user : option User)
    (props : PermissionGuardProps Node) : Node :=
  if negb (hasPermission user props) then fallback props else children props.

(** ** Build-time configuration ([import.meta.env]) *)

Class ImportMetaEnv := {
  VITE_API_BASE_URL : option string;
  VITE_JWT_STORAGE_KEY : option string;
  VITE_REFRESH_TOKEN_KEY : option string;
}.

(** ** HTTP values (axios) *)

Inductive RequestData :=
| NoData
| LoginData (credentials : LoginRequest)
| RefreshTokenData (refreshToken : string).

Record Headers := {
  Authorization : option string;
}.

(** An axios request config; [_retry] is the mark the response interceptor
    sets on a config it has already retried. *)
Record RequestConfig := {
  method : string;
  url : string;
  data : RequestData;
  headers : option Headers;
  _retry : bool;
}.

(** The generic parameter of [apiClient.get<T>] / [apiClient.post<T>]. *)
Inductive ResponseType := TAuthResponse | TUser | TMessage | TTokens.

Record MessageResponse := {
  msg_message : string;
}.

(** The body of a refresh response, read as
    [{ accessToken, refreshToken: newRefreshToken }]. *)
Record TokensResponse := {
  tok_accessToken : string;
  tok_refreshToken : option string;
}.

Definition payload (T : ResponseType) : Type :=
  match T with
  | TAuthResponse => AuthResponse
  | TUser => User
  | TMessage => MessageResponse
  | TTokens => TokensResponse
  end.

Record AxiosResponse (A : Type) := {
  resp_status : Z;
  resp_data : A;
}.
Arguments resp_status {A} _.
Arguments resp_data {A} _.

(** The body of an error response, read through [as any] with [?.]. *)
Record ErrorBody := {
  err_message : option string;
  err_code : option string;
  err_details : option string;
}.

Record ErrorResponse := {
  status : Z;
  err_data : option ErrorBody;
}.

Record AxiosError := {
  message : string;
  response : option ErrorResponse;
  config : RequestConfig;
}.

(** What a rejected promise carries in this program. *)
Inductive Thrown :=
| ThrownAxios (e : AxiosError)
| ThrownApi (e : ApiError)
| ThrownError (msg : string).

Definition thrown_message (e : Thrown) : string :=
  match e with
  | ThrownAxios e => message e
  | ThrownApi e => api_message e
  | ThrownError msg => msg
  end.

Inductive Outcome (A : Type) :=
| Resolved (a : A)
| Rejected (e : Thrown).
Arguments Resolved {A} _.
Arguments Rejected {A} _.

(** ** The backend and the network *)

(** A request as it leaves the browser: through the configured instance
    [apiClient], or through the bare [axios] the refresh call uses. *)
Inductive NetEvent :=
| ViaApiClient (cfg : RequestConfig)
| ViaAxios (cfg : RequestConfig).

(** What the transport reports when a request does not succeed. *)
Record NetworkFailure := {
  net_message : string;
  net_response : option ErrorResponse;
}.

(** The backend: any deterministic machine with its own state. *)
Class Backend := {
  Server : Type;
  serve : forall T : ResponseType,
    NetEvent -> Server -> (AxiosResponse (payload T) + NetworkFailure) * Server;
}.

Inductive Toast :=
| ToastSuccess (m : string)
| ToastError (m : string).

(** Everything outside the React state that the program reads or writes. *)
Record World `{Backend} := {
  localStorage : gmap string string;
  location_href : string;
  console_error : list (string * Thrown);
  toasts : list Toast;
  server : Server;
  network : list NetEvent;
}.

(** ** Token store and axios instance ([lib/api-client]) *)

Section ApiClient.
Context {env : ImportMetaEnv} {backend : Backend}.

Definition with_localStorage (f : gmap string string -> gmap string string)
    (w : World) : World :=
  {| localStorage := f (localStorage w);
     location_href := location_href w;
     console_error := console_error w;
     toasts := toasts w;
     server := server w;
     network := network w |}.

Definition with_location_href (href : string) (w : World) : World :=
  {| localStorage := localStorage w;
     location_href := href;
     console_error := console_error w;
     toasts := toasts w;
     server := server w;
     network := network w |}.

(** [import.meta.env.VITE_JWT_STORAGE_KEY || 'auth_token'] *)
Definition jwt_storage_key : string :=
  JS.or_else VITE_JWT_STORAGE_KEY "auth_token".

(** [import.meta.env.VITE_REFRESH_TOKEN_KEY || 'refresh_token'] *)
Definition refresh_token_key : string :=
  JS.or_else VITE_REFRESH_TOKEN_KEY "refresh_token".

Definition getToken (w : World) : option string :=
  localStorage w !! jwt_storage_key.

Definition getRefreshToken (w : World) : option string :=
  localStorage w !! refresh_token_key.

Definition setTokens (accessToken : string) (refreshToken : option string)
    (w : World) : World :=
  let w := with_localStorage (insert jwt_storage_key accessToken) w in
  JS.if_truthy refreshToken
    (fun refreshToken =>
       with_localStorage (insert refresh_token_key refreshToken) w)
    w.

Definition clearTokens (w : World) : World :=
  let w := with_localStorage (delete jwt_storage_key) w in
  with_localStorage (delete refresh_token_key) w.

(** One request on the wire: the backend answers and moves on, and the
    request is appended to the network log. Storage is out of its reach. *)
Definition transport (T : ResponseType) (ev : NetEvent) (w : World)
    : (AxiosResponse (payload T) + NetworkFailure) * World :=
  let '(r, s) := serve T ev (server w) in
  (r, {| localStorage := localStorage w;
         location_href := location_href w;
         console_error := console_error w;
         toasts := toasts w;
         server := s;
         network := network w ++ [ev] |}).

Definition with_Authorization (value : string) (config : RequestConfig)
    : RequestConfig :=
  match headers config with
  | Some _ =>
    {| method := method config;
       url := url config;
       data := data config;
       headers := Some {| Authorization := Some value |};
       _retry := _retry config |}
  | None => config
  end.

Definition mark_retry (config : RequestConfig) : RequestConfig :=
  {| method := method config;
     url := url config;
     data := data config;
     headers := headers config;
     _retry := true |}.

(** Request interceptor: attach the bearer token when there is one. *)
Definition requestInterceptor (config : RequestConfig) (w : World)
    : RequestConfig :=
  JS.if_truthy (getToken w)
    (fun token => with_Authorization ("Bearer " +:+ token) config)
    config.

(** [`${import.meta.env.VITE_API_BASE_URL}/auth/refresh-token`] *)
Definition refresh_url : string :=
  JS.interpolate VITE_API_BASE_URL +:+ "/auth/refresh-token".

(** [axios.post(url, { refreshToken })] on the bare axios. *)
Definition refreshRequest (refreshToken : string) : RequestConfig :=
  {| method := "post";
     url := refresh_url;
     data := RefreshTokenData refreshToken;
     headers := Some {| Authorization := None |};
     _retry := false |}.

(** The error axios rejects with for a request sent with [config]. *)
Definition axiosError (failure : NetworkFailure) (config : RequestConfig)
    : AxiosError :=
  {| message := net_message failure;
     response := net_response failure;
     config := config |}.

(** The [ApiError] literal built from a transport error. *)
Definition toApiError (error : AxiosError) : ApiError :=
  let body := response error ≫= err_data in
  {| api_message :=
       JS.or_else (body ≫= err_message)
         (JS.or_else (Some (message error)) "An error occurred");
     api_status := JS.num_or_else (status <$> response error) 500;
     api_code := body ≫= err_code;
     api_details := body ≫= err_details |}.

(** [error.response?.status === 401 && !originalRequest._retry] *)
Definition wants_refresh (error : AxiosError) : bool :=
  match response error with
  | Some r => Z.eqb (status r) 401
  | None => false
  end && negb (_retry (config error)).

Definition Client (T : ResponseType) : Type :=
  RequestConfig -> World ->
  option (Outcome (AxiosResponse (payload T)) * World).

(** The [catch (refreshError)] block of the response interceptor. *)
Definition refreshFailed {A} (refreshError : Thrown) (w : World)
    : Outcome A * World :=
  let w := clearTokens w in
  let w := with_location_href "/login" w in
  (Rejected refreshError, w).

(** Response interceptor, rejected side. [apiClient] is the instance the
    handler calls to send the original request again. *)
Definition responseErrorInterceptor {T} (apiClient : Client T)
    (error : AxiosError) (w : World)
    : option (Outcome (AxiosResponse (payload T)) * World) :=
  let originalRequest := config error in
  if wants_refresh error then
    let originalRequest := mark_retry originalRequest in
    JS.if_truthy (getRefreshToken w)
      (fun refreshToken =>
         match transport TTokens (ViaAxios (refreshRequest refreshToken)) w with
         | (inl refreshResponse, w) =>
           let accessToken := tok_accessToken (resp_data refreshResponse) in
           let newRefreshToken := tok_refreshToken (resp_data refreshResponse) in
           let w := setTokens accessToken newRefreshToken w in
           let originalRequest :=
             with_Authorization ("Bearer " +:+ accessToken) originalRequest in
           apiClient originalRequest w
         | (inr failure, w) =>
           Some (refreshFailed
                   (ThrownAxios (axiosError failure (refreshRequest refreshToken)))
                   w)
         end)
      (Some (refreshFailed (ThrownError "No refresh token available") w))
  else
    Some (Rejected (ThrownApi (toApiError error)), w).

(** One pass of the instance: request interceptor, transport, response
    interceptor. [self] is the instance itself. *)
Definition dispatch {T} (self : Client T) : Client T :=
  fun config w =>
    let config := requestInterceptor config w in
    match transport T (ViaApiClient config) w with
    | (inl response, w) => Some (Resolved response, w)
    | (inr failure, w) =>
      responseErrorInterceptor self (axiosError failure config) w
    end.

(** The instance calls itself from its own interceptor; [fuel] bounds the
    nesting and [None] means the bound was reached. *)
Fixpoint apiClient_fuel (fuel : nat) (T : ResponseType) : Client T :=
  match fuel with
  | O => fun _ _ => None
  | S fuel => dispatch (apiClient_fuel fuel T)
  end.

(** How many passes a config can still cause: a marked config is never
    sent again by the interceptor. *)
Definition retry_budget (config : RequestConfig) : nat :=
  if _retry config then 1 else 2.

Definition apiClient (T : ResponseType) : Client T :=
  fun config w => apiClient_fuel (retry_budget config) T config w.

(** [apiClient.get(url)] and [apiClient.post(url, data)] *)
Definition get (T : ResponseType) (url : string) : World ->
    option (Outcome (AxiosResponse (payload T)) * World) :=
  apiClient T
    {| method := "get"; url := url; data := NoData;
       headers := Some {| Authorization := None |}; _retry := false |}.

Definition post (T : ResponseType) (url : string) (data : RequestData)
    : World -> option (Outcome (AxiosResponse (payload T)) * World) :=
  apiClient T
    {| method := "post"; url := url; data := data;
       headers := Some {| Authorization := None |}; _retry := false |}.

(** [const response = await p; return response.data;] *)
Definition response_data {A}
    (r : option (Outcome (AxiosResponse A) * World))
    : option (Outcome A * World) :=
  match r with
  | Some (Resolved response, w) => Some (Resolved (resp_data response), w)
  | Some (Rejected e, w) => Some (Rejected e, w)
  | None => None
  end.

(** The runs of the instance, case by case: [Run T config w o w'] reads
    "called on [config] in world [w], the instance settles with [o] and
    leaves the world [w']". *)
Inductive Run (T : ResponseType) (config : RequestConfig) (w : World)
    : Outcome (AxiosResponse (payload T)) -> World -> Prop :=
| RunResolved response w1 :
    transport T (ViaApiClient (requestInterceptor config w)) w
      = (inl response, w1) ->
    Run T config w (Resolved response) w1
| RunNormalized failure w1 :
    transport T (ViaApiClient (requestInterceptor config w)) w
      = (inr failure, w1) ->
    wants_refresh (axiosError failure (requestInterceptor config w)) = false ->
    Run T config w
      (Rejected
         (ThrownApi (toApiError (axiosError failure (requestInterceptor config w)))))
      w1
| RunNoRefreshToken failure w1 :
    transport T (ViaApiClient (requestInterceptor config w)) w
      = (inr failure, w1) ->
    wants_refresh (axiosError failure (requestInterceptor config w)) = true ->
    JS.truthy_opt (getRefreshToken w1) = false ->
    Run T config w
      (Rejected (ThrownError "No refresh token available"))
      (with_location_href "/login" (clearTokens w1))
| RunRefreshFailed failure w1 refreshToken failure2 w2 :
    transport T (ViaApiClient (requestInterceptor config w)) w
      = (inr failure, w1) ->
    wants_refresh (axiosError failure (requestInterceptor config w)) = true ->
    getRefreshToken w1 = Some refreshToken ->
    refreshToken <> "" ->
    transport TTokens (ViaAxios (refreshRequest refreshToken)) w1
      = (inr failure2, w2) ->
    Run T config w
      (Rejected (ThrownAxios (axiosError failure2 (refreshRequest refreshToken))))
      (with_location_href "/login" (clearTokens w2))
| RunRetried failure w1 refreshToken refreshResponse w2 o w' :
    transport T (ViaApiClient (requestInterceptor config w)) w
      = (inr failure, w1) ->
    wants_refresh (axiosError failure (requestInterceptor config w)) = true ->
    getRefreshToken w1 = Some refreshToken ->
    refreshToken <> "" ->
    transport TTokens (ViaAxios (refreshRequest refreshToken)) w1
      = (inl refreshResponse, w2) ->
    Run T
      (with_Authorization
         ("Bearer " +:+ tok_accessToken (resp_data refreshResponse))
         (mark_retry (requestInterceptor config w)))
      (setTokens (tok_accessToken (resp_data refreshResponse))
         (tok_refreshToken (resp_data refreshResponse)) w2)
      o w' ->
    Run T config w o w'.

End ApiClient.

(** ** Auth service ([services/auth.service]) *)

Module AuthService.
Section AuthService.
Context {env : ImportMetaEnv} {backend : Backend}.

Definition login (credentials : LoginRequest) (w : World)
    : option (Outcome AuthResponse * World) :=
  response_data (post TAuthResponse "/auth/login" (LoginData credentials) w).

Definition logout (w : World) : option (Outcome MessageResponse * World) :=
  response_data (post TMessage "/auth/logout" NoData w).

Definition getProfile (w : World) : option (Outcome User * World) :=
  response_data (get TUser "/auth/profile" w).

End AuthService.
End AuthService.

(** ** Session context ([contexts/auth.context], [AuthProvider]) *)

(** The two [useState] cells of the provider. *)
Record AuthState := {
  user : option User;
  isLoading : bool;
}.

(** What [useAuth()] hands to the components (the operations aside). *)
Record AuthContextType := {
  ctx_user : option User;
  ctx_isAuthenticated : bool;
  ctx_isLoading : bool;
}.

Module AuthProvider.
Section AuthProvider.
Context {env : ImportMetaEnv} {backend : Backend}.

(** [useState<User | null>(null)], [useState(true)] *)
Definition initial : AuthState := {| user := None; isLoading := true |}.

Definition setUser (u : option User) (st : AuthState) : AuthState :=
  {| user := u; isLoading := isLoading st |}.

Definition setIsLoading (b : bool) (st : AuthState) : AuthState :=
  {| user := user st; isLoading := b |}.

Definition toast_success (m : string) (w : World) : World :=
  {| localStorage := localStorage w;
     location_href := location_href w;
     console_error := console_error w;
     toasts := toasts w ++ [ToastSuccess m];
     server := server w;
     network := network w |}.

Definition toast_error (m : string) (w : World) : World :=
  {| localStorage := localStorage w;
     location_href := location_href w;
     console_error := console_error w;
     toasts := toasts w ++ [ToastError m];
     server := server w;
     network := network w |}.

Definition console_log_error (label : string) (e : Thrown) (w : World) : World :=
  {| localStorage := localStorage w;
     location_href := location_href w;
     console_error := console_error w ++ [(label, e)];
     toasts := toasts w;
     server := server w;
     network := network w |}.

(** [const isAuthenticated = !!user && !!getToken();] *)
Definition isAuthenticated (st : AuthState) (w : World) : bool :=
  match user st with Some _ => true | None => false end
  && JS.truthy_opt (getToken w).

Definition initializeAuth (st : AuthState) (w : World)
    : option (AuthState * World) :=
  JS.if_truthy (getToken w)
    (fun token =>
       match AuthService.getProfile w with
       | Some (Resolved userData, w) =>
         let st := setUser (Some userData) st in
         Some (setIsLoading false st, w)
       | Some (Rejected error, w) =>
         let w := clearTokens w in
         let st := setUser None st in
         Some (setIsLoading false st, w)
       | None => None
       end)
    (Some (setIsLoading false st, w)).

Definition login (credentials : LoginRequest) (st : AuthState) (w : World)
    : option (Outcome unit * AuthState * World) :=
  let st := setIsLoading true st in
  match AuthService.login credentials w with
  | Some (Resolved response, w) =>
    let w := setTokens (accessToken response) (Some (refreshToken response)) w in
    let st := setUser (Some (auth_user response)) st in
    let w :=
      toast_success
        (JS.or_else (Some (auth_message response)) "Login successful") w in
    Some (Resolved tt, setIsLoading false st, w)
  | Some (Rejected error, w) =>
    let w :=
      toast_error (JS.or_else (Some (thrown_message error)) "Login failed") w in
    Some (Rejected error, setIsLoading false st, w)
  | None => None
  end.

(** The [finally] block of [logout]. *)
Definition logout_finally (st : AuthState) (w : World) : AuthState * World :=
  let w := clearTokens w in
  let st := setUser None st in
  let st := setIsLoading false st in
  (st, toast_success "Logged out successfully" w).

Definition logout (st : AuthState) (w : World)
    : option (Outcome unit * AuthState * World) :=
  let st := setIsLoading true st in
  match AuthService.logout w with
  | Some (Resolved _, w) =>
    let '(st, w) := logout_finally st w in
    Some (Resolved tt, st, w)
  | Some (Rejected error, w) =>
    let w := console_log_error "Logout API call failed:" error w in
    let '(st, w) := logout_finally st w in
    Some (Resolved tt, st, w)
  | None => None
  end.

Definition refreshToken (st : AuthState) (w : World)
    : option (Outcome unit * AuthState * World) :=
  match AuthService.getProfile w with
  | Some (Resolved userData, w) =>
    Some (Resolved tt, setUser (Some userData) st, w)
  | Some (Rejected error, w) =>
    let w := clearTokens w in
    let st := setUser None st in
    Some (Rejected error, st, w)
  | None => None
  end.

(** The [contextValue] given to the provider at a render. *)
Definition contextValue (st : AuthState) (w : World) : AuthContextType :=
  {| ctx_user := user st;
     ctx_isAuthenticated := isAuthenticated st w;
     ctx_isLoading := isLoading st |}.

End AuthProvider.
End AuthProvider.

(** ** Vocabulary of the properties *)

(** A user with no role, or whose role grants nothing (no user at all
    included). *)
Definition role_absent (user : option User) : Prop :=
  match user with
  | None => True
  | Some u => role u = None
  end.

Definition no_permissions (user : option User) : Prop :=
  match user with
  | None => True
  | Some u =>
    match role u with
    | None => True
    | Some r => permissions r = []
    end
  end.

(** Requests in a stretch of the network log, by the way they left. *)
Definition is_refresh_call (ev : NetEvent) : bool :=
  match ev with ViaAxios _ => true | ViaApiClient _ => false end.

Definition is_api_call (ev : NetEvent) : bool :=
  match ev with ViaApiClient _ => true | ViaAxios _ => false end.

Definition refresh_calls (log : list NetEvent) : nat :=
  length (List.filter is_refresh_call log).

Definition api_calls (log : list NetEvent) : nat :=
  length (List.filter is_api_call log).

(** ** Sample data *)

Module Sample.

Definition guestRole : Role :=
  {| role_id := 2; name := "guest"; description := "no grants";
     permissions := [];
     role_createdAt := "2024-01-01"; role_updatedAt := "2024-01-01" |}.

Definition editorRole : Role :=
  {| role_id := 3; name := "editor"; description := "manages users";
     permissions := ["user:read"; "user:write"];
     role_createdAt := "2024-01-01"; role_updatedAt := "2024-01-01" |}.

Definition account (r : option Role) : User :=
  {| id := 7; email := "a@x.com"; firstName := "A"; lastName := "X";
     roleId := 3; role := r; isActive := true; emailVerified := true;
     createdAt := "2024-01-01"; updatedAt := "2024-01-01" |}.

Definition guest : User := account (Some guestRole).
Definition editor : User := account (Some editorRole).

Definition credentials : LoginRequest :=
  {| login_email := "a@x.com"; login_password := "Secret1!" |}.

(** No variable set: the defaults ['auth_token'] and ['refresh_token']. *)
Definition defaults : ImportMetaEnv :=
  {| VITE_API_BASE_URL := None;
     VITE_JWT_STORAGE_KEY := None;
     VITE_REFRESH_TOKEN_KEY := None |}.

Definition unauthorized : NetworkFailure :=
  {| net_message := "Request failed with status code 401";
     net_response :=
       Some {| status := 401;
               err_data :=
                 Some {| err_message := Some "Unauthorized";
                         err_code := Some "AUTH_REQUIRED";
                         err_details := None |} |} |}.

Definition unreachable : NetworkFailure :=
  {| net_message := "Network Error"; net_response := None |}.

Definition ok {A} (a : A) : AxiosResponse A :=
  {| resp_status := 200; resp_data := a |}.

Definition answer (T : ResponseType) : payload T :=
  match T with
  | TAuthResponse =>
    {| auth_user := editor; accessToken := "access-1";
       refreshToken := "refresh-1"; auth_message := "Welcome" |}
  | TUser => editor
  | TMessage => {| msg_message := "Logged out" |}
  | TTokens =>
    {| tok_accessToken := "access-2"; tok_refreshToken := Some "refresh-2" |}
  end.

(** A backend that answers every request. *)
Definition healthy : Backend :=
  {| Server := unit;
     serve := fun T _ s => (inl (ok (answer T)), s) |}.

(** A backend that cannot be reached. *)
Definition offline : Backend :=
  {| Server := unit;
     serve := fun T _ s => (inr unreachable, s) |}.

(** A backend that refreshes tokens but answers 401 to everything else. *)
Definition expired : Backend :=
  {| Server := unit;
     serve := fun T ev s =>
       match ev with
       | ViaAxios _ => (inl (ok (answer T)), s)
       | ViaApiClient _ => (inr unauthorized, s)
       end |}.

(** A backend that answers 401 to everything, the refresh call included. *)
Definition locked : Backend :=
  {| Server := unit;
     serve := fun T _ s => (inr unauthorized, s) |}.


Definition world {backend : Backend} (store : gmap string string) (s : Server) : World :=
  {| localStorage := store;
     location_href := "/";
     console_error := [];
     toasts := [];
     server := s;
     network := [] |}.

Definition loggedIn : gmap string string :=
  <["refresh_token" := "refresh-0"]> (<["auth_token" := "access-0"]> ∅).

Definition profileRequest : RequestConfig :=
  {| method := "get"; url := "/auth/profile"; data := NoData;
     headers := Some {| Authorization := None |}; _retry := false |}.

End Sample.

(** ** The base URL of the instance ([lib/api-client]) *)

(** [import.meta.env.VITE_API_BASE_URL || 'http://localhost:3000/api'] *)
Definition baseURL {env : ImportMetaEnv} : string :=
  JS.or_else VITE_API_BASE_URL "http://localhost:3000/api".

(** ** Route and component guards ([components/auth]) *)

Inductive FallbackComponent (Node : Type) :=
| UnauthorizedAccess
| CustomFallback (c : Node).
Arguments UnauthorizedAccess {Node}.
Arguments CustomFallback {Node} _.

(** What a guard returns. *)
Inductive Rendered (Node : Type) :=
| LoadingPage (message : string)
| Navigate (to : string) (state_from : option string) (replace : bool)
| Fallback (c : FallbackComponent Node)
| Children (c : Node).
Arguments LoadingPage {Node} _.
Arguments Navigate {Node} _ _ _.
Arguments Fallback {Node} _.
Arguments Children {Node} _.

(** [location] is what [useLocation()] returns. *)
Definition ProtectedRoute {Node} (ctx : AuthContextType) (location : string)
    (redirectTo : option string) (children : Node) : Rendered Node :=
  let redirectTo := default "/login" redirectTo in
  if ctx_isLoading ctx then LoadingPage "Checking authentication..."
  else if negb (ctx_isAuthenticated ctx) then
    Navigate redirectTo (Some location) true
  else Children children.

Record RoleGuardProps (Node : Type) := {
  requiredPermissions : option (list string);
  requiredRole : option string;
  role_requireAll : bool;
  fallbackComponent : option Node;
  redirectTo : option string;
  role_children : Node;
}.
Arguments requiredPermissions {Node} _.
Arguments requiredRole {Node} _.
Arguments role_requireAll {Node} _.
Arguments fallbackComponent {Node} _.
Arguments redirectTo {Node} _.
Arguments role_children {Node} _.

(** The two returns every refusal of [RoleGuard] chooses between. *)
Definition refused {Node} (props : RoleGuardProps Node) : Rendered Node :=
  JS.if_truthy (redirectTo props)
    (fun redirectTo => Navigate redirectTo None true)
    (Fallback
       match fallbackComponent props with
       | Some c => CustomFallback c
       | None => UnauthorizedAccess
       end).

Definition RoleGuard {Node} (ctx : AuthContextType) (location : string)
    (props : RoleGuardProps Node) : Rendered Node :=
  let requiredPermissions := default [] (requiredPermissions props) in
  if ctx_isLoading ctx then LoadingPage "Checking permissions..."
  else if negb (ctx_isAuthenticated ctx) then
    Navigate "/login" (Some location) true
  else
    match ctx_user ctx with
    | None => refused props
    | Some user =>
      match role user with
      | None => refused props
      | Some user_role =>
        if JS.if_truthy (requiredRole props)
             (fun requiredRole => negb (String.eqb (name user_role) requiredRole))
             false
        then refused props
        else if (0 <? length requiredPermissions)%nat then
          let userPermissions := permissions user_role in
          let hasRequiredPermissions :=
            if role_requireAll props then
              JS.every requiredPermissions
                (fun permission => JS.includes userPermissions permission)
            else
              JS.some requiredPermissions
                (fun permission => JS.includes userPermissions permission) in
          if negb hasRequiredPermissions then refused props
          else Children (role_children props)
        else Children (role_children props)
      end
    end.

(** The convenience components over [PermissionGuard]. *)
Definition HasPermission {Node} (user : option User) (p : string)
    (children_ fallback_ : Node) : Node :=
  PermissionGuard user
    {| permission := Some p; guard_permissions := None; requireAll := false;
       fallback := fallback_; children := children_ |}.

Definition HasAnyPermission {Node} (user : option User) (ps : list string)
    (children_ fallback_ : Node) : Node :=
  PermissionGuard user
    {| permission := None; guard_permissions := Some ps; requireAll := false;
       fallback := fallback_; children := children_ |}.

Definition HasAllPermissions {Node} (user : option User) (ps : list string)
    (children_ fallback_ : Node) : Node :=
  PermissionGuard user
    {| permission := None; guard_permissions := Some ps; requireAll := true;
       fallback := fallback_; children := children_ |}.

(** ** Selection state of the user list ([pages/UserList], [UserTable]) *)

Module UserList.

(** The updater [handleUserSelect] passes to [setSelectedUsers]. *)
Definition handleUserSelect (user : User) (prev : list User) : list User :=
  let isSelected := JS.some prev (fun selected => Z.eqb (id selected) (id user)) in
  if isSelected then
    List.filter (fun selected => negb (Z.eqb (id selected) (id user))) prev
  else prev ++ [user].

Definition handleSelectAll (selectedUsers filteredUsers : list User) : list User :=
  if (length selectedUsers =? length filteredUsers)%nat then []
  else filteredUsers.

Definition handleClearSelection : list User := [].

End UserList.

Module UserTable.

Definition isAllSelected (users selectedUsers : list User) : bool :=
  (0 <? length users)%nat && (length selectedUsers =? length users)%nat.

Definition isPartiallySelected (users selectedUsers : list User) : bool :=
  (0 <? length selectedUsers)%nat && negb (isAllSelected users selectedUsers).

Definition isUserSelected (selectedUsers : list User) (user : User) : bool :=
  JS.some selectedUsers (fun selected => Z.eqb (id selected) (id user)).

(** The handler the header checkbox calls: [isAllSelected ? onClearSelection
    : onSelectAll], with the handlers [UserList] passes. *)
Definition headerCheckbox_onChange (users selectedUsers : list User) : list User :=
  if isAllSelected users selectedUsers then UserList.handleClearSelection
  else UserList.handleSelectAll selectedUsers users.

End UserTable.

(** The updater of [PermissionMatrix.toggleCategory]; [UserFilters] computes
    [newRoles] in [handleRoleToggle] by the same expression. *)
Definition toggleCategory (category : string) (prev : list string) : list string :=
  if JS.includes prev category then
    List.filter (fun c => negb (String.eqb c category)) prev
  else prev ++ [category].

Definition handleRoleToggle (roleId : string) (filters_role : list string)
    : list string :=
  if JS.includes filters_role roleId then
    List.filter (fun id => negb (String.eqb id roleId)) filters_role
  else filters_role ++ [roleId].

(** ** Password strength ([utils/helpers]) *)

Module Helpers.

(** A JavaScript string as its sequence of UTF-16 code units: [length]
    counts them and the unflagged regular expressions test them one by
    one. *)
Definition jsstring : Type := list N.

(** [/[c]/.test(s)] for a character class [c]. *)
Definition test (class : N -> bool) (s : jsstring) : bool := existsb class s.

Definition between (lo hi c : N) : bool := (lo <=? c)%N && (c <=? hi)%N.

(** [[a-z]], [[A-Z]], [\d] *)
Definition lower (c : N) : bool := between 97 122 c.
Definition upper (c : N) : bool := between 65 90 c.
Definition digit (c : N) : bool := between 48 57 c.

(** The class of the fifth rule: ! @ # $ % ^ & * ( ) , . ? quote : { } | < > *)
Definition special (c : N) : bool :=
  existsb (N.eqb c)
    [33; 64; 35; 36; 37; 94; 38; 42; 40; 41; 44; 46; 63; 34; 58; 123; 125;
     124; 60; 62]%N.

Record PasswordStrength := {
  isValid : bool;
  score : Z;
  feedback : list string;
}.

(** One [if (rule) score += 1 else feedback.push(message)] step. *)
Definition check (rule : bool) (message : string) (acc : Z * list string)
    : Z * list string :=
  if rule then ((fst acc + 1)%Z, snd acc) else (fst acc, snd acc ++ [message]).

Definition validatePasswordStrength (password : jsstring) : PasswordStrength :=
  let acc := (0%Z, []) in
  let acc := check (8 <=? length password)%nat
               "Password must be at least 8 characters long" acc in
  let acc := check (test lower password)
               "Password must contain lowercase letters" acc in
  let acc := check (test upper password)
               "Password must contain uppercase letters" acc in
  let acc := check (test digit password)
               "Password must contain numbers" acc in
  let acc := check (test special password)
               "Password must contain special characters" acc in
  {| isValid := (4 <=? fst acc)%Z; score := fst acc; feedback := snd acc |}.

End Helpers.

(** ** The logout button ([components/layout/Header]) *)

(** The header's own state and the router's current path. *)
Record HeaderState := {
  isLoggingOut : bool;
  route : string;
}.

Module Header.
Section Header.
Context {env : ImportMetaEnv} {backend : Backend}.

Definition handleLogout (h : HeaderState) (st : AuthState) (w : World)
    : option (HeaderState * AuthState * World) :=
  let h := {| isLoggingOut := true; route := route h |} in
  match AuthProvider.logout st w with
  | Some (Resolved _, st, w) =>
    let h := {| isLoggingOut := isLoggingOut h; route := "/login" |} in
    Some ({| isLoggingOut := false; route := route h |}, st, w)
  | Some (Rejected error, st, w) =>
    let w := AuthProvider.console_log_error "Logout failed:" error w in
    Some ({| isLoggingOut := false; route := route h |}, st, w)
  | None => None
  end.

End Header.
End Header.

(** ** More sample data *)

Module Fixtures.

Definition adminRole : Role :=
  {| role_id := 1; name := "admin"; description := "everything";
     permissions := ["admin"; "user:read"; "user:write"; "role:read"];
     role_createdAt := "2024-01-01"; role_updatedAt := "2024-01-01" |}.

Definition shuffledEditorRole : Role :=
  {| role_id := 3; name := "editor"; description := "manages users";
     permissions := ["user:write"; "user:read"; "user:write"];
     role_createdAt := "2024-01-01"; role_updatedAt := "2024-01-01" |}.

Definition admin : User := Sample.account (Some adminRole).

Definition other (n : Z) : User :=
  {| id := n; email := "b@x.com"; firstName := "B"; lastName := "Y";
     roleId := 2; role := Some Sample.guestRole; isActive := false;
     emailVerified := false; createdAt := "2024-02-01";
     updatedAt := "2024-02-01" |}.

(** A deployment with its API base URL configured. *)
Definition configured : ImportMetaEnv :=
  {| VITE_API_BASE_URL := Some "https://api.example.com";
     VITE_JWT_STORAGE_KEY := Some "jwt";
     VITE_REFRESH_TOKEN_KEY := Some "jwt_refresh" |}.

(** A signed-in session, as the provider reports it. *)
Definition signedIn (u : User) : AuthContextType :=
  {| ctx_user := Some u; ctx_isAuthenticated := true; ctx_isLoading := false |}.

End Fixtures.

(** * Properties *)

(** ** JavaScript helpers *)

Lemma truthy_true (s : string) : JS.truthy s = true <-> s <> "".
Proof.
  unfold JS.truthy. destruct (String.eqb_spec s ""); simpl; split; congruence.
Qed.

Lemma truthy_false (s : string) : JS.truthy s = false <-> s = "".
Proof.
  unfold JS.truthy. destruct (String.eqb_spec s ""); simpl; split; congruence.
Qed.


Lemma if_truthy_true {A} (o : option string) (k : string -> A) (d : A) (s : string) :
  o = Some s -> s <> "" -> JS.if_truthy o k d = k s.
Proof.
  intros -> Hs. simpl. apply truthy_true in Hs. rewrite Hs. reflexivity.
Qed.

Lemma if_truthy_false {A} (o : option string) (k : string -> A) (d : A) :
  JS.truthy_opt o = false -> JS.if_truthy o k d = d.
Proof.
  destruct o as [s|]; simpl; [|reflexivity]. intros ->. reflexivity.
Qed.

Lemma or_else_truthy (s d : string) : s <> "" -> JS.or_else (Some s) d = s.
Proof. intros Hs. simpl. apply truthy_true in Hs. rewrite Hs. reflexivity. Qed.

Lemma every_some {A} (l : list A) (f : A -> bool) :
  l <> [] -> JS.every l f = true -> JS.some l f = true.
Proof.
  destruct l as [|a l]; [congruence|].
  intros _. unfold JS.every, JS.some. simpl.
  intros Hall. apply andb_prop in Hall as [-> _]. reflexivity.
Qed.

Lemma some_never {A} (l : list A) (f : A -> bool) :
  (forall a, f a = false) -> JS.some l f = false.
Proof.
  intros Hf. unfold JS.some. induction l as [|a l IH]; simpl; [reflexivity|].
  rewrite Hf, IH. reflexivity.
Qed.

Lemma every_never {A} (l : list A) (f : A -> bool) :
  (forall a, f a = false) -> l <> [] -> JS.every l f = false.
Proof.
  intros Hf. destruct l as [|a l]; [congruence|].
  intros _. unfold JS.every. simpl. rewrite Hf. reflexivity.
Qed.

(** ** Permission evaluator *)

Lemma hasPermission_cases {Node} (user : option User) (props : PermissionGuardProps Node) :
  (exists p, hasPermission user props = usePermission user p) \/
  (exists ps, ps <> [] /\
     (hasPermission user props = useAllPermissions user ps \/
      hasPermission user props = useAnyPermission user ps)) \/
  hasPermission user props = false.
Proof.
  unfold hasPermission, JS.if_truthy.
  destruct (permission props) as [p|]; [destruct (JS.truthy p); [left; eauto|]|];
    (destruct (guard_permissions props) as [[|q ps]|]; simpl; [right; right; reflexivity | | right; right; reflexivity];
     right; left; exists (q :: ps); split; [discriminate|];
     destruct (requireAll props); [left | right]; reflexivity).
Qed.

(** C1 as stated fails: a user whose role carries an empty permission
    set passes the ALL-mode hook on the empty list of requirements. *)
Lemma useAllPermissions_empty_role_empty_list :
  no_permissions (Some Sample.guest) /\
  useAllPermissions (Some Sample.guest) [] = true /\
  ~ (forall user R, no_permissions user -> useAllPermissions user R = false).
Proof.
  split; [reflexivity|]. split; [reflexivity|].
  intros Hall. specialize (Hall (Some Sample.guest) [] eq_refl). discriminate.
Qed.

(** C1 (amended): a user with no role, or with a role whose permission set
    is empty, fails the single-permission hook and the ANY-mode hook on every
    argument, fails the ALL-mode hook on every non-empty list (and on every
    list when the role is absent), and is shown the fallback by
    PermissionGuard whatever its props. *)
Theorem permission_checks_fail_closed (user : option User) :
  no_permissions user ->
  (forall p, usePermission user p = false) /\
  (forall R, useAnyPermission user R = false) /\
  (forall R, R <> [] -> useAllPermissions user R = false) /\
  (role_absent user -> forall R, useAllPermissions user R = false) /\
  (~ role_absent user -> useAllPermissions user [] = true) /\
  (forall Node (props : PermissionGuardProps Node),
     hasPermission user props = false /\
     PermissionGuard user props = fallback props).
Proof.
  intros Hno.
  assert (Hsingle : forall p, usePermission user p = false).
  { intros p. destruct user as [u|]; simpl in *; [|reflexivity].
    destruct (role u) as [r|]; [|reflexivity]. rewrite Hno. reflexivity. }
  assert (Hany : forall R, useAnyPermission user R = false).
  { intros R. destruct user as [u|]; simpl in *; [|reflexivity].
    destruct (role u) as [r|]; [|reflexivity].
    apply some_never. intros p. rewrite Hno. reflexivity. }
  assert (Hall : forall R, R <> [] -> useAllPermissions user R = false).
  { intros R HR. destruct user as [u|]; simpl in *; [|reflexivity].
    destruct (role u) as [r|]; [|reflexivity].
    apply every_never; [|exact HR]. intros p. rewrite Hno. reflexivity. }
  repeat split; auto.
  - intros Habs R. destruct user as [u|]; simpl in *; [|reflexivity].
    rewrite Habs. reflexivity.
  - intros Hrole. destruct user as [u|]; simpl in *; [|destruct Hrole; exact I].
    destruct (role u) as [r|]; [reflexivity | destruct Hrole; reflexivity].
  - destruct (hasPermission_cases user props) as [[p ->]|[(ps & Hps & [-> | ->])| ->]]; auto.
  - unfold PermissionGuard.
    destruct (hasPermission_cases user props) as [[p ->]|[(ps & Hps & [-> | ->])| ->]];
      rewrite ?Hsingle, ?Hany, ?Hall by assumption; reflexivity.
Qed.

Lemma permission_checks_fail_closed_witness :
  no_permissions (Some Sample.guest) /\
  usePermission (Some Sample.guest) "user:read" = false /\
  useAnyPermission (Some Sample.guest) ["user:read"; "role:read"] = false /\
  useAllPermissions (Some Sample.guest) ["user:read"] = false.
Proof.
  split; [reflexivity|].
  destruct (permission_checks_fail_closed (Some Sample.guest) eq_refl)
    as (Hsingle & Hany & Hall & _).
  split; [apply Hsingle|]. split; [apply Hany|]. apply Hall. discriminate.
Defined.

(** C2: on a non-empty list of requirements, passing the ALL-mode hook
    implies passing the ANY-mode hook. *)
Theorem all_permissions_imply_any (user : option User) (R : list string) :
  R <> [] ->
  useAllPermissions user R = true ->
  useAnyPermission user R = true.
Proof.
  intros HR. unfold useAllPermissions, useAnyPermission.
  destruct user as [u|]; [|discriminate].
  destruct (role u) as [r|]; [|discriminate].
  apply every_some. exact HR.
Qed.

Lemma all_permissions_imply_any_witness :
  ["user:read"; "user:write"] <> [] /\
  useAllPermissions (Some Sample.editor) ["user:read"; "user:write"] = true /\
  useAnyPermission (Some Sample.editor) ["user:read"; "user:write"] = true.
Proof.
  split; [discriminate|]. split; [reflexivity|].
  apply (all_permissions_imply_any (Some Sample.editor) ["user:read"; "user:write"]).
  - discriminate.
  - reflexivity.
Defined.

(** ** Token store *)

Section TokenStore.
Context {env : ImportMetaEnv} {backend : Backend}.

Lemma localStorage_setTokens (a : string) (rt : option string) (w : World) :
  localStorage (setTokens a rt w) =
  JS.if_truthy rt
    (fun b => <[refresh_token_key := b]> (<[jwt_storage_key := a]> (localStorage w)))
    (<[jwt_storage_key := a]> (localStorage w)).
Proof.
  unfold setTokens, JS.if_truthy.
  destruct rt as [b|]; [destruct (JS.truthy b)|]; reflexivity.
Qed.

Lemma localStorage_clearTokens (w : World) :
  localStorage (clearTokens w) =
  delete refresh_token_key (delete jwt_storage_key (localStorage w)).
Proof. reflexivity. Qed.

Lemma getToken_clearTokens (w : World) : getToken (clearTokens w) = None.
Proof.
  unfold getToken. rewrite localStorage_clearTokens.
  destruct (decide (refresh_token_key = jwt_storage_key)) as [->|Hne].
  - apply lookup_delete_eq.
  - rewrite lookup_delete_ne by exact Hne. apply lookup_delete_eq.
Qed.

Lemma getRefreshToken_clearTokens (w : World) :
  getRefreshToken (clearTokens w) = None.
Proof.
  unfold getRefreshToken. rewrite localStorage_clearTokens.
  apply lookup_delete_eq.
Qed.

Lemma clearTokens_empty_store (w : World) :
  getToken w = None -> getRefreshToken w = None ->
  localStorage (clearTokens w) = localStorage w.
Proof.
  unfold getToken, getRefreshToken. intros Ha Hr.
  rewrite localStorage_clearTokens.
  rewrite (delete_id (localStorage w)) by exact Ha.
  apply delete_id. exact Hr.
Qed.


Lemma getRefreshToken_setTokens (a b : string) (w : World) :
  b <> "" -> getRefreshToken (setTokens a (Some b) w) = Some b.
Proof.
  intros Hb. unfold getRefreshToken. rewrite localStorage_setTokens.
  rewrite (if_truthy_true (Some b) _ _ b eq_refl Hb).
  apply lookup_insert_eq.
Qed.

Lemma getToken_setTokens (a : string) (rt : option string) (w : World) :
  jwt_storage_key <> refresh_token_key ->
  getToken (setTokens a rt w) = Some a.
Proof.
  intros Hkeys. unfold getToken. rewrite localStorage_setTokens.
  unfold JS.if_truthy. destruct rt as [b|]; [destruct (JS.truthy b)|].
  - rewrite lookup_insert_ne by congruence. apply lookup_insert_eq.
  - apply lookup_insert_eq.
  - apply lookup_insert_eq.
Qed.

(** C6 (amended): with the two storage keys distinct, for every access
    token a and every non-empty refresh token b, after setTokens(a, b)
    getToken() returns a and getRefreshToken() returns b; after
    clearTokens() both return null. *)
Theorem token_store_round_trip (a b : string) (w : World) :
  b <> "" ->
  jwt_storage_key <> refresh_token_key ->
  getToken (setTokens a (Some b) w) = Some a /\
  getRefreshToken (setTokens a (Some b) w) = Some b /\
  getToken (clearTokens (setTokens a (Some b) w)) = None /\
  getRefreshToken (clearTokens (setTokens a (Some b) w)) = None /\
  getToken (clearTokens w) = None /\
  getRefreshToken (clearTokens w) = None.
Proof.
  intros Hb Hkeys.
  repeat split.
  - apply getToken_setTokens. exact Hkeys.
  - apply getRefreshToken_setTokens. exact Hb.
  - apply getToken_clearTokens.
  - apply getRefreshToken_clearTokens.
  - apply getToken_clearTokens.
  - apply getRefreshToken_clearTokens.
Qed.

(** C10: setTokens(a) with the refresh token omitted, or given as the
    empty string, stores a under the access-token key and touches no other
    key; with the two keys distinct the stored refresh token is what
    getRefreshToken() returned before the call. *)
Theorem setTokens_keeps_refresh_token (a : string) (rt : option string) (w : World) :
  rt = None \/ rt = Some "" ->
  getToken (setTokens a rt w) = Some a /\
  localStorage (setTokens a rt w) = <[jwt_storage_key := a]> (localStorage w) /\
  (forall k, k <> jwt_storage_key ->
     localStorage (setTokens a rt w) !! k = localStorage w !! k) /\
  (jwt_storage_key <> refresh_token_key ->
     getRefreshToken (setTokens a rt w) = getRefreshToken w).
Proof.
  intros Hrt.
  assert (Hstore : localStorage (setTokens a rt w)
                   = <[jwt_storage_key := a]> (localStorage w)).
  { rewrite localStorage_setTokens. destruct Hrt as [-> | ->]; reflexivity. }
  unfold getToken, getRefreshToken. rewrite Hstore.
  split; [apply lookup_insert_eq|]. split; [reflexivity|]. split.
  - intros k Hk. apply lookup_insert_ne. congruence.
  - intros Hkeys. apply lookup_insert_ne. exact Hkeys.
Qed.

End TokenStore.

(** C6 as stated fails: an empty refresh-token string is not stored, so
    getRefreshToken() does not return it. *)
Lemma setTokens_empty_refresh_token_not_stored :
  let w := Sample.world (backend := Sample.offline) ∅ tt in
  getRefreshToken (env := Sample.defaults) (setTokens (env := Sample.defaults) "a" (Some "") w)
  = None /\
  getRefreshToken (env := Sample.defaults) (setTokens (env := Sample.defaults) "a" (Some "") w)
  <> Some "".
Proof. split; [reflexivity | discriminate]. Qed.

Lemma token_store_round_trip_witness :
  let w := Sample.world (backend := Sample.offline) ∅ tt in
  "r" <> "" /\
  jwt_storage_key (env := Sample.defaults) <> refresh_token_key (env := Sample.defaults) /\
  getToken (env := Sample.defaults) (setTokens (env := Sample.defaults) "a" (Some "r") w) = Some "a" /\
  getRefreshToken (env := Sample.defaults) (setTokens (env := Sample.defaults) "a" (Some "r") w) = Some "r".
Proof.
  intros w.
  assert (Hb : "r" <> "") by discriminate.
  assert (Hkeys : jwt_storage_key (env := Sample.defaults)
                  <> refresh_token_key (env := Sample.defaults)) by discriminate.
  split; [exact Hb|]. split; [exact Hkeys|].
  destruct (token_store_round_trip (env := Sample.defaults) "a" "r" w Hb Hkeys)
    as (Ha & Hr & _).
  split; [exact Ha | exact Hr].
Defined.

Lemma setTokens_keeps_refresh_token_witness :
  let w := Sample.world (backend := Sample.offline) Sample.loggedIn tt in
  (Some "" = None \/ Some "" = Some "") /\
  getToken (env := Sample.defaults) (setTokens (env := Sample.defaults) "access-9" (Some "") w)
  = Some "access-9" /\
  getRefreshToken (env := Sample.defaults) (setTokens (env := Sample.defaults) "access-9" (Some "") w)
  = Some "refresh-0".
Proof.
  intros w.
  assert (Hrt : Some "" = None \/ Some "" = @Some string "") by (right; reflexivity).
  split; [exact Hrt|].
  destruct (setTokens_keeps_refresh_token (env := Sample.defaults) "access-9" (Some "") w Hrt)
    as (Ha & _ & _ & Hr).
  split; [exact Ha|].
  rewrite Hr by discriminate. reflexivity.
Defined.

(** ** HTTP client *)

Section HttpClient.
Context {env : ImportMetaEnv} {backend : Backend}.

Lemma transport_frame (T : ResponseType) (ev : NetEvent) (w w1 : World)
    (r : AxiosResponse (payload T) + NetworkFailure) :
  transport T ev w = (r, w1) ->
  localStorage w1 = localStorage w /\
  location_href w1 = location_href w /\
  console_error w1 = console_error w /\
  toasts w1 = toasts w /\
  network w1 = network w ++ [ev].
Proof.
  unfold transport. destruct (serve T ev (server w)) as [r' s].
  intros [= _ <-]. simpl. repeat split; reflexivity.
Qed.

Lemma transport_getToken (T : ResponseType) (ev : NetEvent) (w w1 : World)
    (r : AxiosResponse (payload T) + NetworkFailure) :
  transport T ev w = (r, w1) ->
  getToken w1 = getToken w /\ getRefreshToken w1 = getRefreshToken w.
Proof.
  intros Ht. apply transport_frame in Ht as (Hls & _).
  unfold getToken, getRefreshToken. rewrite Hls. split; reflexivity.
Qed.

Lemma with_Authorization_retry (v : string) (c : RequestConfig) :
  _retry (with_Authorization v c) = _retry c.
Proof. unfold with_Authorization. destruct (headers c); reflexivity. Qed.

Lemma requestInterceptor_retry (c : RequestConfig) (w : World) :
  _retry (requestInterceptor c w) = _retry c.
Proof.
  unfold requestInterceptor, JS.if_truthy.
  destruct (getToken w) as [t|]; [destruct (JS.truthy t)|];
    auto using with_Authorization_retry.
Qed.

Lemma wants_refresh_true (failure : NetworkFailure) (c : RequestConfig) :
  wants_refresh (axiosError failure c) = true <->
  (exists r, net_response failure = Some r /\ status r = 401%Z) /\
  _retry c = false.
Proof.
  unfold wants_refresh, axiosError. simpl.
  destruct (net_response failure) as [r|]; simpl.
  - rewrite andb_true_iff, negb_true_iff, Z.eqb_eq. split.
    + intros [Hs Hr]. split; [eauto | exact Hr].
    + intros [(r' & [= <-] & Hs) Hr]. split; assumption.
  - split; [discriminate | intros [(r' & Hr & _) _]; discriminate].
Qed.

Lemma wants_refresh_marked (failure : NetworkFailure) (c : RequestConfig) :
  _retry c = true -> wants_refresh (axiosError failure c) = false.
Proof.
  intros Hc. unfold wants_refresh, axiosError. simpl. rewrite Hc.
  apply andb_false_r.
Qed.

Lemma with_Authorization_fields (v : string) (c : RequestConfig) :
  method (with_Authorization v c) = method c /\
  url (with_Authorization v c) = url c /\
  data (with_Authorization v c) = data c.
Proof. unfold with_Authorization. destruct (headers c); auto. Qed.

Lemma requestInterceptor_fields (c : RequestConfig) (w : World) :
  method (requestInterceptor c w) = method c /\
  url (requestInterceptor c w) = url c /\
  data (requestInterceptor c w) = data c.
Proof.
  unfold requestInterceptor, JS.if_truthy.
  destruct (getToken w) as [t|]; [destruct (JS.truthy t)|];
    auto using with_Authorization_fields.
Qed.

Lemma headers_with_Authorization (v : string) (c : RequestConfig) :
  headers c <> None ->
  headers (with_Authorization v c) = Some {| Authorization := Some v |}.
Proof. unfold with_Authorization. destruct (headers c); [reflexivity | congruence]. Qed.

Lemma headers_requestInterceptor (c : RequestConfig) (w : World) :
  headers c <> None -> headers (requestInterceptor c w) <> None.
Proof.
  intros Hh. unfold requestInterceptor, JS.if_truthy.
  destruct (getToken w) as [t|]; [destruct (JS.truthy t)|]; try exact Hh.
  rewrite headers_with_Authorization by exact Hh. discriminate.
Qed.

(** The header of the request sent again after a refresh that returned
    the access token [a]. *)
Lemma headers_retried (a : string) (rt : option string) (c : RequestConfig)
    (w : World) :
  jwt_storage_key <> refresh_token_key ->
  headers c <> None ->
  headers (requestInterceptor
             (with_Authorization ("Bearer " +:+ a) (mark_retry c))
             (setTokens a rt w))
  = Some {| Authorization := Some ("Bearer " +:+ a) |}.
Proof.
  intros Hkeys Hh.
  assert (Hh' : headers (with_Authorization ("Bearer " +:+ a) (mark_retry c))
                = Some {| Authorization := Some ("Bearer " +:+ a) |}).
  { apply headers_with_Authorization. exact Hh. }
  unfold requestInterceptor. rewrite getToken_setTokens by exact Hkeys.
  simpl. destruct (JS.truthy a); [|exact Hh'].
  apply headers_with_Authorization. rewrite Hh'. discriminate.
Qed.

(** The interceptor re-enters the instance on marked configs only. *)
Lemma dispatch_self (T : ResponseType) (self1 self2 : Client T)
    (c : RequestConfig) (w : World) :
  (forall c' w', _retry c' = true -> self1 c' w' = self2 c' w') ->
  dispatch self1 c w = dispatch self2 c w.
Proof.
  intros Hself. unfold dispatch.
  destruct (transport T _ w) as [[resp|failure] w1]; [reflexivity|].
  unfold responseErrorInterceptor.
  destruct (wants_refresh _); [|reflexivity].
  unfold JS.if_truthy.
  destruct (getRefreshToken w1) as [rt|]; [|reflexivity].
  destruct (JS.truthy rt); [|reflexivity].
  destruct (transport TTokens _ w1) as [[rr|failure2] w2]; [|reflexivity].
  apply Hself. rewrite with_Authorization_retry. reflexivity.
Qed.

Lemma dispatch_marked (T : ResponseType) (self1 self2 : Client T)
    (c : RequestConfig) (w : World) :
  _retry c = true -> dispatch self1 c w = dispatch self2 c w.
Proof.
  intros Hc. unfold dispatch.
  destruct (transport T _ w) as [[resp|failure] w1]; [reflexivity|].
  unfold responseErrorInterceptor.
  rewrite wants_refresh_marked; [reflexivity|].
  rewrite requestInterceptor_retry. exact Hc.
Qed.

(** The instance satisfies the equation the source writes: one pass whose
    interceptor calls the instance itself. *)
Lemma apiClient_unfold (T : ResponseType) (c : RequestConfig) (w : World) :
  apiClient T c w = dispatch (apiClient T) c w.
Proof.
  unfold apiClient at 1. unfold retry_budget.
  destruct (_retry c) eqn:Hc; simpl.
  - apply dispatch_marked. exact Hc.
  - apply dispatch_self. intros c' w' Hc'.
    unfold apiClient, retry_budget. rewrite Hc'. reflexivity.
Qed.

Lemma apiClient_run_marked (T : ResponseType) (c : RequestConfig) (w : World) :
  _retry c = true ->
  exists o w', apiClient T c w = Some (o, w') /\ Run T c w o w'.
Proof.
  intros Hc. rewrite apiClient_unfold. unfold dispatch.
  destruct (transport T _ w) as [[resp|failure] w1] eqn:Ht.
  - eexists _, _. split; [reflexivity|]. apply RunResolved. exact Ht.
  - unfold responseErrorInterceptor.
    assert (Hw : wants_refresh (axiosError failure (requestInterceptor c w)) = false).
    { apply wants_refresh_marked. rewrite requestInterceptor_retry. exact Hc. }
    rewrite Hw. eexists _, _. split; [reflexivity|].
    apply RunNormalized; assumption.
Qed.

(** The instance always settles, and [Run] describes how. *)
Lemma apiClient_run (T : ResponseType) (c : RequestConfig) (w : World) :
  exists o w', apiClient T c w = Some (o, w') /\ Run T c w o w'.
Proof.
  rewrite apiClient_unfold. unfold dispatch.
  destruct (transport T _ w) as [[resp|failure] w1] eqn:Ht.
  { eexists _, _. split; [reflexivity|]. apply RunResolved. exact Ht. }
  unfold responseErrorInterceptor.
  destruct (wants_refresh _) eqn:Hw.
  2:{ eexists _, _. split; [reflexivity|]. apply RunNormalized; assumption. }
  destruct (getRefreshToken w1) as [rt|] eqn:Hrt; simpl.
  2:{ eexists _, _. split; [reflexivity|].
      apply (RunNoRefreshToken T c w failure w1 Ht Hw). rewrite Hrt. reflexivity. }
  destruct (JS.truthy rt) eqn:Htruthy.
  2:{ eexists _, _. split; [reflexivity|].
      apply (RunNoRefreshToken T c w failure w1 Ht Hw). rewrite Hrt. exact Htruthy. }
  apply truthy_true in Htruthy.
  destruct (transport TTokens _ w1) as [[rr|failure2] w2] eqn:Ht2.
  - destruct (apiClient_run_marked T
                (with_Authorization ("Bearer " +:+ tok_accessToken (resp_data rr))
                   (mark_retry (requestInterceptor c w)))
                (setTokens (tok_accessToken (resp_data rr))
                   (tok_refreshToken (resp_data rr)) w2))
      as (o & w' & Heq & Hrun).
    { rewrite with_Authorization_retry. reflexivity. }
    exists o, w'. split; [exact Heq|].
    eapply RunRetried; eassumption.
  - eexists _, _. split; [reflexivity|].
    eapply RunRefreshFailed; eassumption.
Qed.


Lemma apiClient_returns (T : ResponseType) (c : RequestConfig) (w : World) :
  apiClient T c w <> None.
Proof.
  destruct (apiClient_run T c w) as (o & w' & -> & _). discriminate.
Qed.

Lemma setTokens_frame (a : string) (rt : option string) (w : World) :
  location_href (setTokens a rt w) = location_href w /\
  console_error (setTokens a rt w) = console_error w /\
  toasts (setTokens a rt w) = toasts w /\
  server (setTokens a rt w) = server w /\
  network (setTokens a rt w) = network w.
Proof.
  unfold setTokens, JS.if_truthy.
  destruct rt as [b|]; [destruct (JS.truthy b)|]; repeat split; reflexivity.
Qed.

(** A marked config is sent once: its answer, or its failure in the
    uniform shape, is the result. *)
Lemma Run_marked (T : ResponseType) (c : RequestConfig) (w w' : World)
    (o : Outcome (AxiosResponse (payload T))) :
  _retry c = true ->
  Run T c w o w' ->
  (exists resp,
     transport T (ViaApiClient (requestInterceptor c w)) w = (inl resp, w') /\
     o = Resolved resp) \/
  (exists failure,
     transport T (ViaApiClient (requestInterceptor c w)) w = (inr failure, w') /\
     o = Rejected
           (ThrownApi (toApiError (axiosError failure (requestInterceptor c w))))).
Proof.
  intros Hc Hrun.
  assert (Hno : forall failure,
             wants_refresh (axiosError failure (requestInterceptor c w)) <> true).
  { intros failure. rewrite wants_refresh_marked; [discriminate|].
    rewrite requestInterceptor_retry. exact Hc. }
  destruct Hrun as
      [resp w1 Ht | failure w1 Ht Hw | failure w1 Ht Hw Hrt
      | failure w1 rt failure2 w2 Ht Hw Hrt Hne Ht2
      | failure w1 rt rr w2 o' w'' Ht Hw Hrt Hne Ht2 Hrun2];
    try (exfalso; eapply Hno; eassumption).
  - left. eauto.
  - right. eauto.
Qed.

(** What a run adds to the network log. *)
Lemma Run_network (T : ResponseType) (c : RequestConfig) (w w' : World)
    (o : Outcome (AxiosResponse (payload T))) :
  Run T c w o w' ->
  exists evs,
    network w' = network w ++ evs /\
    refresh_calls evs <= 1 /\
    api_calls evs <= 2 /\
    (_retry c = true -> evs = [ViaApiClient (requestInterceptor c w)]).
Proof.
  intros Hrun.
  assert (Hnot : forall failure,
             wants_refresh (axiosError failure (requestInterceptor c w)) = true ->
             _retry c = true -> False).
  { intros failure Hw Hc. rewrite wants_refresh_marked in Hw; [discriminate|].
    rewrite requestInterceptor_retry. exact Hc. }
  destruct Hrun as
      [resp w1 Ht | failure w1 Ht Hw | failure w1 Ht Hw Hrt
      | failure w1 rt failure2 w2 Ht Hw Hrt Hne Ht2
      | failure w1 rt rr w2 o' w'' Ht Hw Hrt Hne Ht2 Hrun2].
  - apply transport_frame in Ht as (_ & _ & _ & _ & Hn).
    eexists. split; [exact Hn|]. cbn. repeat split; auto.
  - apply transport_frame in Ht as (_ & _ & _ & _ & Hn).
    eexists. split; [exact Hn|]. cbn. repeat split; auto.
  - apply transport_frame in Ht as (_ & _ & _ & _ & Hn).
    eexists. split; [exact Hn|]. cbn. repeat split; auto.
  - apply transport_frame in Ht as (_ & _ & _ & _ & Hn).
    apply transport_frame in Ht2 as (_ & _ & _ & _ & Hn2).
    exists [ViaApiClient (requestInterceptor c w); ViaAxios (refreshRequest rt)].
    split.
    + cbn. rewrite Hn2, Hn, <- app_assoc. reflexivity.
    + cbn. repeat split; auto. intros Hc. destruct (Hnot _ Hw Hc).
  - apply transport_frame in Ht as (_ & _ & _ & _ & Hn).
    apply transport_frame in Ht2 as (_ & _ & _ & _ & Hn2).
    apply Run_marked in Hrun2; [|rewrite with_Authorization_retry; reflexivity].
    destruct (setTokens_frame (tok_accessToken (resp_data rr))
                (tok_refreshToken (resp_data rr)) w2) as (_ & _ & _ & _ & Hn3).
    eexists [ViaApiClient (requestInterceptor c w); ViaAxios (refreshRequest rt);
             ViaApiClient _].
    split.
    + destruct Hrun2 as [(resp & Ht3 & _) | (failure3 & Ht3 & _)];
        apply transport_frame in Ht3 as (_ & _ & _ & _ & Hn4);
        rewrite Hn4, Hn3, Hn2, Hn, <- !app_assoc; reflexivity.
    + cbn. repeat split; auto. intros Hc. destruct (Hnot _ Hw Hc).
Qed.

(** The client writes neither to the console nor to the toasts. *)
Lemma Run_frame (T : ResponseType) (c : RequestConfig) (w w' : World)
    (o : Outcome (AxiosResponse (payload T))) :
  Run T c w o w' ->
  console_error w' = console_error w /\ toasts w' = toasts w.
Proof.
  intros Hrun.
  induction Hrun as
      [c w resp w1 Ht | c w failure w1 Ht Hw | c w failure w1 Ht Hw Hrt
      | c w failure w1 rt failure2 w2 Ht Hw Hrt Hne Ht2
      | c w failure w1 rt rr w2 o' w'' Ht Hw Hrt Hne Ht2 Hrun2 IH].
  - apply transport_frame in Ht as (_ & _ & Hc & Hts & _). auto.
  - apply transport_frame in Ht as (_ & _ & Hc & Hts & _). auto.
  - apply transport_frame in Ht as (_ & _ & Hc & Hts & _). auto.
  - apply transport_frame in Ht as (_ & _ & Hc & Hts & _).
    apply transport_frame in Ht2 as (_ & _ & Hc2 & Hts2 & _).
    cbn. rewrite Hc2, Hts2. auto.
  - apply transport_frame in Ht as (_ & _ & Hc & Hts & _).
    apply transport_frame in Ht2 as (_ & _ & Hc2 & Hts2 & _).
    destruct (setTokens_frame (tok_accessToken (resp_data rr))
                (tok_refreshToken (resp_data rr)) w2) as (_ & Hc3 & Hts3 & _).
    destruct IH as [IHc IHt].
    rewrite IHc, IHt, Hc3, Hts3, Hc2, Hts2. auto.
Qed.

Lemma refresh_calls_app (l1 l2 : list NetEvent) :
  refresh_calls (l1 ++ l2) = refresh_calls l1 + refresh_calls l2.
Proof. unfold refresh_calls. rewrite List.filter_app, length_app. reflexivity. Qed.

Lemma api_calls_app (l1 l2 : list NetEvent) :
  api_calls (l1 ++ l2) = api_calls l1 + api_calls l2.
Proof. unfold api_calls. rewrite List.filter_app, length_app. reflexivity. Qed.

(** C5: a failed response that does not enter the refresh branch (its
    status is not 401, or the request is already marked as retried) is
    surfaced as an ApiError {message, status, code?, details?}, never as
    the transport error: message is the body's message, else the transport
    message, else a fixed text; status is the response status, 500 when
    there is no response. *)
Theorem errors_are_normalized (T : ResponseType) (c : RequestConfig)
    (w w1 : World) (failure : NetworkFailure) :
  transport T (ViaApiClient (requestInterceptor c w)) w = (inr failure, w1) ->
  (forall r, net_response failure = Some r -> status r <> 401%Z) \/
    _retry c = true ->
  exists e : ApiError,
    apiClient T c w = Some (Rejected (ThrownApi e), w1) /\
    api_message e =
      JS.or_else ((net_response failure ≫= err_data) ≫= err_message)
        (JS.or_else (Some (net_message failure)) "An error occurred") /\
    api_status e = JS.num_or_else (status <$> net_response failure) 500 /\
    api_code e = (net_response failure ≫= err_data) ≫= err_code /\
    api_details e = (net_response failure ≫= err_data) ≫= err_details /\
    (net_response failure = None ->
       api_status e = 500%Z /\ api_code e = None /\ api_details e = None /\
       (net_message failure <> "" -> api_message e = net_message failure)).
Proof.
  intros Ht Hpath.
  assert (Hw : wants_refresh (axiosError failure (requestInterceptor c w)) = false).
  { destruct (wants_refresh _) eqn:Hw; [|reflexivity].
    apply wants_refresh_true in Hw as [(r & Hr & Hs) Hc].
    rewrite requestInterceptor_retry in Hc.
    destruct Hpath as [Hne | Hmarked]; [destruct (Hne r Hr Hs) | congruence]. }
  exists (toApiError (axiosError failure (requestInterceptor c w))).
  split.
  { rewrite apiClient_unfold. unfold dispatch. rewrite Ht.
    unfold responseErrorInterceptor. rewrite Hw. reflexivity. }
  do 4 (split; [reflexivity|]).
  intros Hnone. simpl. rewrite Hnone. simpl.
  do 3 (split; [reflexivity|]).
  intros Hm. apply or_else_truthy, Hm.
Qed.

(** C4: a 401 on a request not yet retried, with no refresh token in the
    store, sends nothing to the refresh endpoint; the call is rejected
    with the error "No refresh token available", the tokens are cleared
    and the location is set to /login. *)
Theorem no_refresh_token_fails_without_refresh_call (T : ResponseType)
    (c : RequestConfig) (w w1 : World) (failure : NetworkFailure)
    (r : ErrorResponse) :
  _retry c = false ->
  transport T (ViaApiClient (requestInterceptor c w)) w = (inr failure, w1) ->
  net_response failure = Some r ->
  status r = 401%Z ->
  JS.truthy_opt (getRefreshToken w) = false ->
  exists w',
    apiClient T c w
      = Some (Rejected (ThrownError "No refresh token available"), w') /\
    network w' = network w ++ [ViaApiClient (requestInterceptor c w)] /\
    refresh_calls (network w') = refresh_calls (network w) /\
    location_href w' = "/login" /\
    getToken w' = None /\
    getRefreshToken w' = None.
Proof.
  intros Hc Ht Hr Hs Hrt.
  assert (Hw : wants_refresh (axiosError failure (requestInterceptor c w)) = true).
  { apply wants_refresh_true. rewrite requestInterceptor_retry. eauto. }
  destruct (transport_getToken _ _ _ _ _ Ht) as [_ Hrt1].
  destruct (transport_frame _ _ _ _ _ Ht) as (_ & _ & _ & _ & Hn).
  exists (with_location_href "/login" (clearTokens w1)).
  split.
  { rewrite apiClient_unfold. unfold dispatch. rewrite Ht.
    unfold responseErrorInterceptor. rewrite Hw.
    rewrite if_truthy_false by (rewrite Hrt1; exact Hrt). reflexivity. }
  split; [exact Hn|]. split.
  { change (network (with_location_href "/login" (clearTokens w1)))
      with (network w1).
    rewrite Hn, refresh_calls_app. cbn. lia. }
  split; [reflexivity|]. split.
  - apply (getToken_clearTokens w1).
  - apply (getRefreshToken_clearTokens w1).
Qed.

(** C3 (amended): every call of the client settles after at most one
    call to the refresh endpoint and at most two sends of the request (the
    original and one re-issue); a request already marked as retried is sent
    once and causes no refresh. When an unmarked request is answered 401,
    the store holds a refresh token and the refresh call succeeds, there is
    exactly one refresh call and exactly one re-issue, marked as retried and
    carrying the new access token, and the outcome of that re-issue (a
    second 401 included, surfaced in the uniform shape) is the outcome of
    the call. *)
Theorem refresh_and_retry_at_most_once (T : ResponseType) (c : RequestConfig)
    (w : World) :
  exists o w' evs,
    apiClient T c w = Some (o, w') /\
    network w' = network w ++ evs /\
    refresh_calls evs <= 1 /\
    api_calls evs <= 2 /\
    (_retry c = true -> refresh_calls evs = 0 /\ api_calls evs = 1) /\
    (forall failure w1 r rt rr w2,
       _retry c = false ->
       transport T (ViaApiClient (requestInterceptor c w)) w = (inr failure, w1) ->
       net_response failure = Some r ->
       status r = 401%Z ->
       getRefreshToken w = Some rt ->
       rt <> "" ->
       transport TTokens (ViaAxios (refreshRequest rt)) w1 = (inl rr, w2) ->
       let a := tok_accessToken (resp_data rr) in
       let w3 := setTokens a (tok_refreshToken (resp_data rr)) w2 in
       let retried :=
         requestInterceptor
           (with_Authorization ("Bearer " +:+ a)
              (mark_retry (requestInterceptor c w))) w3 in
       evs = [ViaApiClient (requestInterceptor c w);
              ViaAxios (refreshRequest rt);
              ViaApiClient retried] /\
       refresh_calls evs = 1 /\
       api_calls evs = 2 /\
       _retry retried = true /\
       method retried = method c /\
       url retried = url c /\
       data retried = data c /\
       (jwt_storage_key <> refresh_token_key -> headers c <> None ->
          headers retried = Some {| Authorization := Some ("Bearer " +:+ a) |}) /\
       match transport T (ViaApiClient retried) w3 with
       | (inl resp, w4) => o = Resolved resp /\ w' = w4
       | (inr failure3, w4) =>
         o = Rejected (ThrownApi (toApiError (axiosError failure3 retried))) /\
         w' = w4
       end).
Proof.
  destruct (apiClient_run T c w) as (o & w' & Heq & Hrun).
  destruct (Run_network T c w w' o Hrun) as (evs & Hn & Hrc & Hac & Hmarked).
  exists o, w', evs.
  do 4 (split; [assumption|]).
  split.
  { intros Hc. rewrite (Hmarked Hc). split; reflexivity. }
  intros failure w1 r rt rr w2 Hc Ht Hr Hs Hrt Hne Ht2 a w3 retried.
  destruct (transport_getToken _ _ _ _ _ Ht) as [_ Hrt1].
  destruct (transport_frame _ _ _ _ _ Ht) as (_ & _ & _ & _ & Hn1).
  destruct (transport_frame _ _ _ _ _ Ht2) as (_ & _ & _ & _ & Hn2).
  destruct (setTokens_frame a (tok_refreshToken (resp_data rr)) w2)
    as (_ & _ & _ & _ & Hn3).
  fold w3 in Hn3.
  assert (Hretry : _retry retried = true).
  { unfold retried. rewrite requestInterceptor_retry, with_Authorization_retry.
    reflexivity. }
  assert (Hlast :
    match transport T (ViaApiClient retried) w3 with
    | (inl resp, w4) => o = Resolved resp /\ w' = w4
    | (inr failure3, w4) =>
      o = Rejected (ThrownApi (toApiError (axiosError failure3 retried))) /\
      w' = w4
    end).
  { destruct Hrun as
        [resp' w1' Ht' | failure' w1' Ht' Hw' | failure' w1' Ht' Hw' Hrt'
        | failure' w1' rt' failure2' w2' Ht' Hw' Hrt' Hne' Ht2'
        | failure' w1' rt' rr' w2' o' w'' Ht' Hw' Hrt' Hne' Ht2' Hrun2];
      rewrite Ht in Ht'; try discriminate; injection Ht' as <- <-.
    - assert (Hw : wants_refresh (axiosError failure (requestInterceptor c w)) = true).
      { apply wants_refresh_true. rewrite requestInterceptor_retry. eauto. }
      congruence.
    - rewrite Hrt1, Hrt in Hrt'. simpl in Hrt'.
      apply truthy_false in Hrt'. contradiction.
    - rewrite Hrt1, Hrt in Hrt'. injection Hrt' as <-.
      rewrite Ht2 in Ht2'. discriminate.
    - rewrite Hrt1, Hrt in Hrt'. injection Hrt' as <-.
      rewrite Ht2 in Ht2'. injection Ht2' as <- <-.
      apply Run_marked in Hrun2; [|rewrite with_Authorization_retry; reflexivity].
      fold a w3 retried in Hrun2.
      destruct Hrun2 as [(resp & Ht3 & ->) | (failure3 & Ht3 & ->)];
        rewrite Ht3; split; reflexivity. }
  assert (Hevs : evs = [ViaApiClient (requestInterceptor c w);
                        ViaAxios (refreshRequest rt);
                        ViaApiClient retried]).
  { apply (app_inv_head (network w)). rewrite <- Hn.
    destruct (transport T (ViaApiClient retried) w3) as [[resp|failure3] w4] eqn:Ht3;
      destruct Hlast as [_ ->];
      apply transport_frame in Ht3 as (_ & _ & _ & _ & Hn4);
      rewrite Hn4, Hn3, Hn2, Hn1, <- !app_assoc; reflexivity. }
  split; [exact Hevs|].
  split; [rewrite Hevs; reflexivity|].
  split; [rewrite Hevs; reflexivity|].
  split; [exact Hretry|].
  destruct (requestInterceptor_fields c w) as (Hm1 & Hu1 & Hd1).
  destruct (with_Authorization_fields ("Bearer " +:+ a)
              (mark_retry (requestInterceptor c w))) as (Hm2 & Hu2 & Hd2).
  destruct (requestInterceptor_fields
              (with_Authorization ("Bearer " +:+ a)
                 (mark_retry (requestInterceptor c w))) w3) as (Hm3 & Hu3 & Hd3).
  split; [unfold retried; rewrite Hm3, Hm2; exact Hm1|].
  split; [unfold retried; rewrite Hu3, Hu2; exact Hu1|].
  split; [unfold retried; rewrite Hd3, Hd2; exact Hd1|].
  split; [|exact Hlast].
  intros Hkeys Hh. apply headers_retried; [exact Hkeys|].
  apply headers_requestInterceptor. exact Hh.
Qed.

End HttpClient.

(** C3 as stated fails: a 401 on an unmarked request with no refresh
    token in the store causes no refresh call and no re-issue; and when
    the refresh call itself fails there is a refresh call but no re-issue. *)
Lemma unauthorized_request_not_always_retried :
  let w0 := Sample.world (backend := Sample.locked) ∅ tt in
  let w1 := Sample.world (backend := Sample.locked) Sample.loggedIn tt in
  _retry Sample.profileRequest = false /\
  fst (transport (backend := Sample.locked) TUser
         (ViaApiClient (requestInterceptor (env := Sample.defaults) Sample.profileRequest w0)) w0)
    = inr Sample.unauthorized /\
  (exists o w',
     apiClient (env := Sample.defaults) TUser Sample.profileRequest w0 = Some (o, w') /\
     refresh_calls (network w') = 0 /\
     api_calls (network w') = 1) /\
  (exists o w',
     apiClient (env := Sample.defaults) TUser Sample.profileRequest w1 = Some (o, w') /\
     refresh_calls (network w') = 1 /\
     api_calls (network w') = 1).
Proof.
  intros w0 w1. split; [reflexivity|]. split; [reflexivity|].
  split; eexists _, _; (split; [vm_compute; reflexivity|]); split; reflexivity.
Qed.

Lemma refresh_and_retry_at_most_once_witness :
  let w := Sample.world (backend := Sample.expired) Sample.loggedIn tt in
  exists o w',
    apiClient (env := Sample.defaults) TUser Sample.profileRequest w = Some (o, w') /\
    refresh_calls (network w') = 1 /\
    api_calls (network w') = 2 /\
    o = Rejected
          (ThrownApi {| api_message := "Unauthorized"; api_status := 401;
                        api_code := Some "AUTH_REQUIRED"; api_details := None |}).
Proof.
  intros w.
  destruct (refresh_and_retry_at_most_once (env := Sample.defaults)
              TUser Sample.profileRequest w)
    as (o & w' & evs & Heq & Hn & _ & _ & _ & Hexact).
  edestruct Hexact as (_ & Hr & Ha & _ & _ & _ & _ & _ & Hlast).
  - reflexivity.
  - vm_compute. reflexivity.
  - reflexivity.
  - reflexivity.
  - vm_compute. reflexivity.
  - discriminate.
  - vm_compute. reflexivity.
  - exists o, w'. split; [exact Heq|].
    rewrite Hn. change (network w) with (@nil NetEvent). rewrite app_nil_l.
    split; [exact Hr|]. split; [exact Ha|].
    vm_compute in Hlast. destruct Hlast as [-> _]. reflexivity.
Defined.

Lemma no_refresh_token_fails_without_refresh_call_witness :
  let w := Sample.world (backend := Sample.locked) ∅ tt in
  JS.truthy_opt (getRefreshToken (env := Sample.defaults) w) = false /\
  exists w',
    apiClient (env := Sample.defaults) TUser Sample.profileRequest w
      = Some (Rejected (ThrownError "No refresh token available"), w') /\
    refresh_calls (network w') = 0 /\
    location_href w' = "/login".
Proof.
  intros w.
  assert (Hrt : JS.truthy_opt (getRefreshToken (env := Sample.defaults) w) = false)
    by reflexivity.
  split; [exact Hrt|].
  edestruct (no_refresh_token_fails_without_refresh_call (env := Sample.defaults)
               TUser Sample.profileRequest w)
    as (w' & Heq & _ & Hr & Hhref & _).
  - reflexivity.
  - vm_compute. reflexivity.
  - reflexivity.
  - reflexivity.
  - exact Hrt.
  - exists w'. split; [exact Heq|]. split; [exact Hr | exact Hhref].
Defined.

Lemma errors_are_normalized_witness :
  let w := Sample.world (backend := Sample.offline) Sample.loggedIn tt in
  exists e w',
    apiClient (env := Sample.defaults) TUser Sample.profileRequest w
      = Some (Rejected (ThrownApi e), w') /\
    api_message e = "Network Error" /\
    api_status e = 500%Z.
Proof.
  intros w.
  edestruct (errors_are_normalized (env := Sample.defaults)
               TUser Sample.profileRequest w)
    as (e & Heq & _ & _ & _ & _ & Hnone).
  - vm_compute. reflexivity.
  - left. intros r Hr. discriminate Hr.
  - destruct (Hnone eq_refl) as (Hs & _ & _ & Hm).
    eexists e, _. split; [exact Heq|]. split; [|exact Hs].
    apply Hm. discriminate.
Defined.

(** ** Session context *)

Section Session.
Context {env : ImportMetaEnv} {backend : Backend}.


(** With no token in the store, a call leaves the store as it was. *)
Lemma Run_empty_store (T : ResponseType) (c : RequestConfig) (w w' : World)
    (o : Outcome (AxiosResponse (payload T))) :
  getToken w = None ->
  getRefreshToken w = None ->
  Run T c w o w' ->
  localStorage w' = localStorage w.
Proof.
  intros Ha Hr Hrun.
  destruct Hrun as
      [resp w1 Ht | failure w1 Ht Hw | failure w1 Ht Hw Hrt
      | failure w1 rt failure2 w2 Ht Hw Hrt Hne Ht2
      | failure w1 rt rr w2 o' w'' Ht Hw Hrt Hne Ht2 Hrun2];
    destruct (transport_getToken _ _ _ _ _ Ht) as [Ha1 Hr1];
    destruct (transport_frame _ _ _ _ _ Ht) as (Hls & _);
    try congruence.
  change (localStorage (with_location_href "/login" (clearTokens w1)))
    with (localStorage (clearTokens w1)).
  rewrite clearTokens_empty_store by congruence. exact Hls.
Qed.



(** C7: from every state, logout() resolves with the tokens removed from
    the store, the user null, loading ended and the session not
    authenticated, whether the backend call succeeded or failed; a failure
    of the backend call is written to the console and to nothing else. *)
Theorem logout_always_clears (st : AuthState) (w : World) :
  exists w',
    AuthProvider.logout st w
      = Some (Resolved tt, {| user := None; isLoading := false |}, w') /\
    getToken w' = None /\
    getRefreshToken w' = None /\
    AuthProvider.isAuthenticated {| user := None; isLoading := false |} w' = false /\
    (forall error w1,
       AuthService.logout w = Some (Rejected error, w1) ->
       console_error w'
         = console_error w ++ [("Logout API call failed:", error)]) /\
    (forall m w1,
       AuthService.logout w = Some (Resolved m, w1) ->
       console_error w' = console_error w).
Proof.
  unfold AuthProvider.logout, AuthService.logout, post.
  destruct (apiClient_run TMessage
              {| method := "post"; url := "/auth/logout"; data := NoData;
                 headers := Some {| Authorization := None |}; _retry := false |} w)
    as (o & w1 & Heq & Hrun).
  rewrite Heq. destruct (Run_frame _ _ _ _ _ Hrun) as [Hconsole _].
  destruct o as [resp|error]; simpl.
  - exists (AuthProvider.toast_success "Logged out successfully" (clearTokens w1)).
    split; [reflexivity|].
    split; [apply (getToken_clearTokens w1)|].
    split; [apply (getRefreshToken_clearTokens w1)|].
    split; [reflexivity|].
    split; [intros error w2 [=] | intros m w2 _; exact Hconsole].
  - exists (AuthProvider.toast_success "Logged out successfully"
              (clearTokens
                 (AuthProvider.console_log_error "Logout API call failed:" error w1))).
    split; [reflexivity|].
    split; [apply (getToken_clearTokens
                     (AuthProvider.console_log_error "Logout API call failed:" error w1))|].
    split; [apply (getRefreshToken_clearTokens
                     (AuthProvider.console_log_error "Logout API call failed:" error w1))|].
    split; [reflexivity|].
    split; [|intros m w2 [=]].
    intros error' w2 [= <- <-]. simpl. rewrite Hconsole. reflexivity.
Qed.



End Session.

Lemma logout_always_clears_witness :
  let w := Sample.world (backend := Sample.offline) Sample.loggedIn tt in
  let st := {| user := Some Sample.editor; isLoading := false |} in
  exists w',
    AuthProvider.logout (env := Sample.defaults) st w
      = Some (Resolved tt, {| user := None; isLoading := false |}, w') /\
    getToken (env := Sample.defaults) w' = None /\
    getRefreshToken (env := Sample.defaults) w' = None /\
    console_error w'
      = [("Logout API call failed:",
          ThrownApi {| api_message := "Network Error"; api_status := 500;
                       api_code := None; api_details := None |})].
Proof.
  intros w st.
  destruct (logout_always_clears (env := Sample.defaults) st w)
    as (w' & Heq & Ha & Hr & _ & Hfailed & _).
  exists w'. split; [exact Heq|]. split; [exact Ha|]. split; [exact Hr|].
  eapply Hfailed. vm_compute. reflexivity.
Defined.



(** ** Permission hooks as set membership *)

Lemma includes_In (l : list string) (x : string) :
  JS.includes l x = true <-> In x l.
Proof.
  unfold JS.includes. rewrite existsb_exists. split.
  - intros (y & Hy & Heq). apply String.eqb_eq in Heq. subst. exact Hy.
  - intros Hx. exists x. split; [exact Hx | apply String.eqb_refl].
Qed.

Lemma some_includes (R perms : list string) :
  JS.some R (fun p => JS.includes perms p) = true <->
  exists p, In p R /\ In p perms.
Proof.
  unfold JS.some. rewrite existsb_exists.
  split; intros (p & Hp & Hin); exists p; split; auto; apply includes_In; exact Hin.
Qed.

Lemma every_includes (R perms : list string) :
  JS.every R (fun p => JS.includes perms p) = true <->
  forall p, In p R -> In p perms.
Proof.
  unfold JS.every. rewrite forallb_forall.
  split; intros Hall p Hp; apply includes_In; auto.
Qed.

Lemma bool_eq_iff (a b : bool) : (a = true <-> b = true) -> a = b.
Proof. destruct a, b; intros [H1 H2]; auto; try (symmetry; auto). Qed.

(** A user holding the role [r]. *)
Lemma hooks_with_role (u : User) (r : Role) :
  role u = Some r ->
  (forall p, usePermission (Some u) p = JS.includes (permissions r) p) /\
  (forall R, useAnyPermission (Some u) R
             = JS.some R (fun p => JS.includes (permissions r) p)) /\
  (forall R, useAllPermissions (Some u) R
             = JS.every R (fun p => JS.includes (permissions r) p)).
Proof.
  intros Hr. unfold usePermission, useAnyPermission, useAllPermissions.
  rewrite Hr. auto.
Qed.

(** X1: the three hooks see permission lists as sets. Two users whose
    roles grant the same permissions, in any order and with any repetition,
    get the same answers, and so do two required lists with the same
    elements. *)
Theorem hooks_ignore_order_and_duplicates (u u' : User) (r r' : Role)
    (R R' : list string) :
  role u = Some r ->
  role u' = Some r' ->
  (forall p, In p (permissions r) <-> In p (permissions r')) ->
  (forall p, In p R <-> In p R') ->
  (forall p, usePermission (Some u) p = usePermission (Some u') p) /\
  useAnyPermission (Some u) R = useAnyPermission (Some u') R' /\
  useAllPermissions (Some u) R = useAllPermissions (Some u') R'.
Proof.
  intros Hr Hr' Hperms HR.
  destruct (hooks_with_role u r Hr) as (Hp & Hany & Hall).
  destruct (hooks_with_role u' r' Hr') as (Hp' & Hany' & Hall').
  split; [|split].
  - intros p. rewrite Hp, Hp'. apply bool_eq_iff.
    rewrite !includes_In. apply Hperms.
  - rewrite Hany, Hany'. apply bool_eq_iff. rewrite !some_includes.
    split; intros (p & HpR & Hpin); exists p; split;
      try (apply HR; exact HpR); apply Hperms; exact Hpin.
  - rewrite Hall, Hall'. apply bool_eq_iff. rewrite !every_includes.
    split; intros H p HpR; apply Hperms, H, HR; exact HpR.
Qed.

Lemma hooks_ignore_order_and_duplicates_witness :
  useAllPermissions (Some Sample.editor) ["user:read"; "user:write"]
  = useAllPermissions (Some (Sample.account (Some Fixtures.shuffledEditorRole)))
      ["user:write"; "user:write"; "user:read"].
Proof.
  refine (proj2 (proj2 (hooks_ignore_order_and_duplicates
            Sample.editor (Sample.account (Some Fixtures.shuffledEditorRole))
            Sample.editorRole Fixtures.shuffledEditorRole
            ["user:read"; "user:write"] ["user:write"; "user:write"; "user:read"]
            eq_refl eq_refl _ _))).
  - intros p. simpl. tauto.
  - intros p. simpl. tauto.
Defined.

(** X2: granting more never revokes. If every permission of the role
    [r] is also in [r'], whatever a holder of [r] passes (single, ANY, ALL,
    and PermissionGuard with any props) a holder of [r'] passes too. *)
Theorem more_permissions_never_revoke (u u' : User) (r r' : Role) :
  role u = Some r ->
  role u' = Some r' ->
  (forall p, In p (permissions r) -> In p (permissions r')) ->
  (forall p, usePermission (Some u) p = true -> usePermission (Some u') p = true) /\
  (forall R, useAnyPermission (Some u) R = true ->
             useAnyPermission (Some u') R = true) /\
  (forall R, useAllPermissions (Some u) R = true ->
             useAllPermissions (Some u') R = true) /\
  (forall Node (props : PermissionGuardProps Node),
     PermissionGuard (Some u) props = children props ->
     fallback props <> children props ->
     PermissionGuard (Some u') props = children props).
Proof.
  intros Hr Hr' Hincl.
  destruct (hooks_with_role u r Hr) as (Hp & Hany & Hall).
  destruct (hooks_with_role u' r' Hr') as (Hp' & Hany' & Hall').
  assert (H1 : forall p, usePermission (Some u) p = true ->
                         usePermission (Some u') p = true).
  { intros p. rewrite Hp, Hp', !includes_In. apply Hincl. }
  assert (H2 : forall R, useAnyPermission (Some u) R = true ->
                         useAnyPermission (Some u') R = true).
  { intros R. rewrite Hany, Hany', !some_includes.
    intros (p & HpR & Hpin). exists p. auto. }
  assert (H3 : forall R, useAllPermissions (Some u) R = true ->
                         useAllPermissions (Some u') R = true).
  { intros R. rewrite Hall, Hall', !every_includes. auto. }
  do 3 (split; [assumption|]).
  intros Node props Hpass Hdiff.
  assert (Hhas : hasPermission (Some u) props = true).
  { unfold PermissionGuard in Hpass.
    destruct (hasPermission (Some u) props); [reflexivity|].
    simpl in Hpass. contradiction. }
  assert (Hhas' : hasPermission (Some u') props = true).
  { unfold hasPermission, JS.if_truthy in *.
    destruct (permission props) as [p|]; [destruct (JS.truthy p); [auto|]|];
      (destruct (guard_permissions props) as [ps|]; [|discriminate];
       destruct (0 <? length ps)%nat; [|discriminate];
       destruct (requireAll props); auto). }
  unfold PermissionGuard. rewrite Hhas'. reflexivity.
Qed.

Lemma more_permissions_never_revoke_witness :
  usePermission (Some Sample.editor) "user:read" = true /\
  usePermission (Some Fixtures.admin) "user:read" = true.
Proof.
  split; [reflexivity|].
  refine (proj1 (more_permissions_never_revoke Sample.editor Fixtures.admin
                   Sample.editorRole Fixtures.adminRole eq_refl eq_refl _)
            "user:read" eq_refl).
  intros p. simpl. tauto.
Defined.

(** X3: required lists compose. ALL over a concatenation is the
    conjunction and ANY the disjunction of the parts, for every user (a user
    without role included), and a single permission is the one-element case
    of both. *)
Theorem required_lists_compose (user : option User) (R1 R2 : list string)
    (p : string) :
  useAllPermissions user (R1 ++ R2)
  = useAllPermissions user R1 && useAllPermissions user R2 /\
  useAnyPermission user (R1 ++ R2)
  = useAnyPermission user R1 || useAnyPermission user R2 /\
  useAnyPermission user [p] = usePermission user p /\
  useAllPermissions user [p] = usePermission user p.
Proof.
  unfold useAllPermissions, useAnyPermission, usePermission.
  destruct user as [u|]; [|auto].
  destruct (role u) as [r|]; [|auto].
  unfold JS.every, JS.some. rewrite forallb_app, existsb_app. simpl.
  rewrite orb_false_r, andb_true_r. auto.
Qed.

(** ** Guards *)

(** X4: what PermissionGuard and its convenience components decide, in
    terms of the hooks. A non-empty [permission] prop decides alone: the
    [permissions] list and [requireAll] are not looked at. The ANY component
    follows the ANY hook on every list; the ALL component follows the ALL hook
    on non-empty lists only and shows the fallback on the empty list. *)
Theorem permission_guard_decisions {Node} (user : option User)
    (props : PermissionGuardProps Node) (p : string) (ps : list string)
    (c f : Node) :
  (permission props = Some p -> p <> "" ->
   PermissionGuard user props
   = if usePermission user p then children props else fallback props) /\
  HasPermission user p c f
  = (if JS.truthy p && usePermission user p then c else f) /\
  HasAnyPermission user ps c f = (if useAnyPermission user ps then c else f) /\
  HasAllPermissions user ps c f
  = (if (0 <? length ps)%nat && useAllPermissions user ps then c else f) /\
  HasAllPermissions user [] c f = f.
Proof.
  split; [|split; [|split; [|split]]].
  - intros Hp Hne. unfold PermissionGuard, hasPermission.
    rewrite (if_truthy_true _ _ _ p Hp Hne).
    destruct (usePermission user p); reflexivity.
  - unfold HasPermission, PermissionGuard, hasPermission. simpl.
    destruct (JS.truthy p); simpl; [|reflexivity].
    destruct (usePermission user p); reflexivity.
  - unfold HasAnyPermission, PermissionGuard, hasPermission. simpl.
    destruct ps as [|q ps]; simpl.
    + destruct user as [u|]; simpl; [|reflexivity].
      destruct (role u); reflexivity.
    + destruct (useAnyPermission user (q :: ps)); reflexivity.
  - unfold HasAllPermissions, PermissionGuard, hasPermission. simpl.
    destruct (0 <? length ps)%nat; simpl; [|reflexivity].
    destruct (useAllPermissions user ps); reflexivity.
  - reflexivity.
Qed.

Lemma permission_guard_decisions_witness :
  PermissionGuard (Some Sample.editor)
    {| permission := Some "user:write";
       guard_permissions := Some ["role:delete"; "admin"];
       requireAll := true; fallback := "fallback"; children := "children" |}
  = "children".
Proof.
  destruct (permission_guard_decisions (Some Sample.editor)
              {| permission := Some "user:write";
                 guard_permissions := Some ["role:delete"; "admin"];
                 requireAll := true; fallback := "fallback"; children := "children" |}
              "user:write" [] "children" "fallback") as [Hsingle _].
  rewrite Hsingle; [reflexivity | reflexivity | discriminate].
Defined.

(** The role-name test of RoleGuard. *)
Lemma requiredRole_refuses {Node} (props : RoleGuardProps Node) (r : Role) :
  JS.if_truthy (requiredRole props)
    (fun requiredRole => negb (String.eqb (name r) requiredRole)) false = false <->
  (forall rr, requiredRole props = Some rr -> rr <> "" -> name r = rr).
Proof.
  unfold JS.if_truthy. destruct (requiredRole props) as [rr|].
  - destruct (JS.truthy rr) eqn:Ht.
    + rewrite negb_false_iff, String.eqb_eq. split.
      * intros Heq rr' [= <-] _. exact Heq.
      * intros H. apply H; [reflexivity | apply truthy_true, Ht].
    + split; [|reflexivity]. intros _ rr' [= <-] Hne.
      apply truthy_false in Ht. contradiction.
  - split; [|reflexivity]. intros _ rr' [=].
Qed.

Lemma refused_not_children {Node} (props : RoleGuardProps Node) (c : Node) :
  refused props <> Children c.
Proof.
  unfold refused, JS.if_truthy.
  destruct (redirectTo props) as [t|]; [destruct (JS.truthy t)|]; discriminate.
Qed.

(** X5: RoleGuard renders its children exactly when the session is not
    loading and is authenticated, the user has a role, the role's name is the
    required one (when a non-empty one is required), and the required
    permissions are either none or pass the hook of the chosen mode; it never
    renders anything else as children. *)
Theorem RoleGuard_children_iff {Node} (ctx : AuthContextType) (location : string)
    (props : RoleGuardProps Node) (c : Node) :
  RoleGuard ctx location props = Children c <->
  c = role_children props /\
  ctx_isLoading ctx = false /\
  ctx_isAuthenticated ctx = true /\
  exists u r,
    ctx_user ctx = Some u /\ role u = Some r /\
    (forall rr, requiredRole props = Some rr -> rr <> "" -> name r = rr) /\
    (default [] (requiredPermissions props) = [] \/
     (if role_requireAll props
      then useAllPermissions (ctx_user ctx) (default [] (requiredPermissions props))
      else useAnyPermission (ctx_user ctx) (default [] (requiredPermissions props)))
     = true).
Proof.
  unfold RoleGuard.
  destruct (ctx_isLoading ctx).
  { split; [discriminate | intros (_ & [=] & _)]. }
  destruct (ctx_isAuthenticated ctx); simpl.
  2:{ split; [discriminate | intros (_ & _ & [=] & _)]. }
  destruct (ctx_user ctx) as [u|].
  2:{ split; [intros H; destruct (refused_not_children _ _ H)|].
      intros (_ & _ & _ & u & r & [=] & _). }
  destruct (role u) as [r|] eqn:Hr.
  2:{ split; [intros H; destruct (refused_not_children _ _ H)|].
      intros (_ & _ & _ & u' & r' & [= <-] & Hr' & _). congruence. }
  pose proof (requiredRole_refuses props r) as Hname.
  destruct (JS.if_truthy (requiredRole props) _ false).
  { split; [intros H; destruct (refused_not_children _ _ H)|].
    intros (_ & _ & _ & u' & r' & [= <-] & Hr' & Hn & _).
    assert (r' = r) by congruence. subst r'.
    apply Hname in Hn. discriminate. }
  assert (Hn : forall rr, requiredRole props = Some rr -> rr <> "" -> name r = rr)
    by (apply Hname; reflexivity).
  destruct (hooks_with_role u r Hr) as (_ & Hany & Hall).
  rewrite Hany, Hall.
  destruct (default [] (requiredPermissions props)) as [|q R] eqn:HR; simpl length.
  - simpl. split.
    + intros [= <-]. do 3 (split; [reflexivity|]). exists u, r. auto.
    + intros (-> & _). reflexivity.
  - change (0 <? S (length R))%nat with true. cbv iota.
    destruct (role_requireAll props).
    + destruct (JS.every (q :: R) _) eqn:Hpass; simpl.
      * split; [intros [= <-] | intros (-> & _); reflexivity].
        do 3 (split; [reflexivity|]). exists u, r. auto.
      * split; [intros H; destruct (refused_not_children _ _ H)|].
        intros (_ & _ & _ & u' & r' & _ & _ & _ & [Hnil | Hhook]); discriminate.
    + destruct (JS.some (q :: R) _) eqn:Hpass; simpl.
      * split; [intros [= <-] | intros (-> & _); reflexivity].
        do 3 (split; [reflexivity|]). exists u, r. auto.
      * split; [intros H; destruct (refused_not_children _ _ H)|].
        intros (_ & _ & _ & u' & r' & _ & _ & _ & [Hnil | Hhook]); discriminate.
Qed.

(** X6: on an empty requirement the two guards disagree. For a signed-in
    user who has a role, RoleGuard with no required role and no (or an empty
    list of) required permissions renders its children, while the ALL and ANY
    components over the empty list render their fallback, although the ALL
    hook itself returns true. *)
Theorem guards_disagree_on_empty_requirement {Node} (ctx : AuthContextType)
    (location : string) (props : RoleGuardProps Node) (u : User) (r : Role)
    (c f : Node) :
  ctx_isLoading ctx = false ->
  ctx_isAuthenticated ctx = true ->
  ctx_user ctx = Some u ->
  role u = Some r ->
  requiredRole props = None ->
  requiredPermissions props = None \/ requiredPermissions props = Some [] ->
  RoleGuard ctx location props = Children (role_children props) /\
  HasAllPermissions (ctx_user ctx) [] c f = f /\
  HasAnyPermission (ctx_user ctx) [] c f = f /\
  useAllPermissions (ctx_user ctx) [] = true.
Proof.
  intros Hl Ha Hu Hr Hrole Hperms. split.
  - unfold RoleGuard. rewrite Hl, Ha, Hu, Hr, Hrole.
    destruct Hperms as [-> | ->]; reflexivity.
  - rewrite Hu. unfold HasAllPermissions, HasAnyPermission, PermissionGuard,
      hasPermission, useAllPermissions. simpl. rewrite Hr. auto.
Qed.

Lemma guards_disagree_on_empty_requirement_witness :
  let props :=
    {| requiredPermissions := Some []; requiredRole := None;
       role_requireAll := true; fallbackComponent := None;
       redirectTo := None; role_children := "page" |} in
  RoleGuard (Fixtures.signedIn Sample.guest) "/users" props = Children "page" /\
  HasAllPermissions (Some Sample.guest) [] "page" "denied" = "denied".
Proof.
  intros props.
  destruct (guards_disagree_on_empty_requirement
              (Fixtures.signedIn Sample.guest) "/users" props
              Sample.guest Sample.guestRole "page" "denied"
              eq_refl eq_refl eq_refl eq_refl eq_refl (or_intror eq_refl))
    as (Hrole & Hall & _).
  split; [exact Hrole | exact Hall].
Defined.

(** ** HTTP client: the other paths of the interceptors *)

Section Interceptors.
Context {env : ImportMetaEnv} {backend : Backend}.

Lemma localStorage_other_key_setTokens (a : string) (rt : option string)
    (w : World) (k : string) :
  k <> jwt_storage_key -> k <> refresh_token_key ->
  localStorage (setTokens a rt w) !! k = localStorage w !! k.
Proof.
  intros Hj Hr. rewrite localStorage_setTokens. unfold JS.if_truthy.
  destruct rt as [b|]; [destruct (JS.truthy b)|];
    rewrite ?lookup_insert_ne by congruence; reflexivity.
Qed.

Lemma localStorage_other_key_clearTokens (w : World) (k : string) :
  k <> jwt_storage_key -> k <> refresh_token_key ->
  localStorage (clearTokens w) !! k = localStorage w !! k.
Proof.
  intros Hj Hr. rewrite localStorage_clearTokens.
  rewrite !lookup_delete_ne by congruence. reflexivity.
Qed.

Lemma Run_first_event (T : ResponseType) (c : RequestConfig) (w w' : World)
    (o : Outcome (AxiosResponse (payload T))) :
  Run T c w o w' ->
  exists evs,
    network w' = network w ++ ViaApiClient (requestInterceptor c w) :: evs.
Proof.
  intros Hrun. destruct (Run_network T c w w' o Hrun) as (evs & Hn & _).
  destruct Hrun as
      [resp w1 Ht | failure w1 Ht Hw | failure w1 Ht Hw Hrt
      | failure w1 rt failure2 w2 Ht Hw Hrt Hne Ht2
      | failure w1 rt rr w2 o' w'' Ht Hw Hrt Hne Ht2 Hrun2];
    apply transport_frame in Ht as (_ & _ & _ & _ & Hn1).
  - exists []. exact Hn1.
  - exists []. exact Hn1.
  - exists []. exact Hn1.
  - apply transport_frame in Ht2 as (_ & _ & _ & _ & Hn2).
    exists [ViaAxios (refreshRequest rt)].
    cbn. rewrite Hn2, Hn1, <- app_assoc. reflexivity.
  - apply transport_frame in Ht2 as (_ & _ & _ & _ & Hn2).
    destruct (Run_network _ _ _ _ _ Hrun2) as (evs2 & Hn3 & _).
    destruct (setTokens_frame (tok_accessToken (resp_data rr))
                (tok_refreshToken (resp_data rr)) w2) as (_ & _ & _ & _ & Hn4).
    exists (ViaAxios (refreshRequest rt) :: evs2).
    rewrite Hn3, Hn4, Hn2, Hn1, <- !app_assoc. reflexivity.
Qed.


(** X8: when the refresh call itself fails, the client gives up: a 401
    on an unmarked request with a refresh token stored, followed by a failed
    refresh call, rejects with the refresh call's own error (not normalized),
    after exactly the original request and one refresh call and no re-issue;
    both tokens are removed, the location is /login, and no session is
    authenticated any more, whatever its user. *)
Theorem failed_refresh_forces_logout (T : ResponseType) (c : RequestConfig)
    (w w1 w2 : World) (failure failure2 : NetworkFailure) (r : ErrorResponse)
    (rt : string) :
  _retry c = false ->
  transport T (ViaApiClient (requestInterceptor c w)) w = (inr failure, w1) ->
  net_response failure = Some r ->
  status r = 401%Z ->
  getRefreshToken w = Some rt ->
  rt <> "" ->
  transport TTokens (ViaAxios (refreshRequest rt)) w1 = (inr failure2, w2) ->
  exists w',
    apiClient T c w
      = Some (Rejected (ThrownAxios (axiosError failure2 (refreshRequest rt))), w') /\
    network w' = network w ++ [ViaApiClient (requestInterceptor c w);
                               ViaAxios (refreshRequest rt)] /\
    getToken w' = None /\
    getRefreshToken w' = None /\
    location_href w' = "/login" /\
    (forall st, AuthProvider.isAuthenticated st w' = false).
Proof.
  intros Hc Ht Hr Hs Hrt Hne Ht2.
  assert (Hw : wants_refresh (axiosError failure (requestInterceptor c w)) = true).
  { apply wants_refresh_true. rewrite requestInterceptor_retry. eauto. }
  destruct (transport_getToken _ _ _ _ _ Ht) as [_ Hrt1].
  destruct (transport_frame _ _ _ _ _ Ht) as (_ & _ & _ & _ & Hn1).
  destruct (transport_frame _ _ _ _ _ Ht2) as (_ & _ & _ & _ & Hn2).
  exists (with_location_href "/login" (clearTokens w2)).
  split.
  { rewrite apiClient_unfold. unfold dispatch. rewrite Ht.
    unfold responseErrorInterceptor. rewrite Hw.
    rewrite (if_truthy_true _ _ _ rt) by congruence.
    rewrite Ht2. reflexivity. }
  split.
  { change (network (with_location_href "/login" (clearTokens w2)))
      with (network w2).
    rewrite Hn2, Hn1, <- app_assoc. reflexivity. }
  assert (Ha : getToken (with_location_href "/login" (clearTokens w2)) = None)
    by apply (getToken_clearTokens w2).
  split; [exact Ha|].
  split; [apply (getRefreshToken_clearTokens w2)|].
  split; [reflexivity|].
  intros st. unfold AuthProvider.isAuthenticated. rewrite Ha.
  apply andb_false_r.
Qed.

(** X9: a successful refresh is persisted. After a 401 on an unmarked
    request and a successful refresh call, whatever the re-issued request
    brings, the store holds the new access token, and as refresh token the
    rotated one if the response carried a non-empty one, the previous one
    otherwise (storage keys distinct); the location is not touched. *)
Theorem successful_refresh_is_persisted (T : ResponseType) (c : RequestConfig)
    (w w1 w2 : World) (failure : NetworkFailure) (r : ErrorResponse)
    (rt : string) (rr : AxiosResponse (payload TTokens)) :
  jwt_storage_key <> refresh_token_key ->
  _retry c = false ->
  transport T (ViaApiClient (requestInterceptor c w)) w = (inr failure, w1) ->
  net_response failure = Some r ->
  status r = 401%Z ->
  getRefreshToken w = Some rt ->
  rt <> "" ->
  transport TTokens (ViaAxios (refreshRequest rt)) w1 = (inl rr, w2) ->
  exists o w',
    apiClient T c w = Some (o, w') /\
    getToken w' = Some (tok_accessToken (resp_data rr)) /\
    getRefreshToken w'
      = Some (JS.or_else (tok_refreshToken (resp_data rr)) rt) /\
    location_href w' = location_href w.
Proof.
  intros Hkeys Hc Ht Hr Hs Hrt Hne Ht2.
  assert (Hw : wants_refresh (axiosError failure (requestInterceptor c w)) = true).
  { apply wants_refresh_true. rewrite requestInterceptor_retry. eauto. }
  destruct (transport_getToken _ _ _ _ _ Ht) as [_ Hrt1].
  destruct (transport_getToken _ _ _ _ _ Ht2) as [_ Hrt2].
  destruct (transport_frame _ _ _ _ _ Ht) as (_ & Hl1 & _).
  destruct (transport_frame _ _ _ _ _ Ht2) as (_ & Hl2 & _).
  set (a := tok_accessToken (resp_data rr)).
  set (w3 := setTokens a (tok_refreshToken (resp_data rr)) w2).
  destruct (apiClient_run_marked T
              (with_Authorization ("Bearer " +:+ a)
                 (mark_retry (requestInterceptor c w))) w3)
    as (o & w' & Heq & Hrun).
  { rewrite with_Authorization_retry. reflexivity. }
  exists o, w'. split.
  { rewrite apiClient_unfold. unfold dispatch. rewrite Ht.
    unfold responseErrorInterceptor. rewrite Hw.
    rewrite (if_truthy_true _ _ _ rt) by congruence.
    rewrite Ht2. exact Heq. }
  assert (Hframe : localStorage w' = localStorage w3 /\
                   location_href w' = location_href w3).
  { apply Run_marked in Hrun; [|rewrite with_Authorization_retry; reflexivity].
    destruct Hrun as [(resp & Ht3 & _) | (failure3 & Ht3 & _)];
      apply transport_frame in Ht3 as (Hls & Hl & _); auto. }
  destruct Hframe as [Hls Hl].
  unfold getToken, getRefreshToken. rewrite Hls, Hl.
  destruct (setTokens_frame a (tok_refreshToken (resp_data rr)) w2) as (Hl3 & _).
  split; [apply (getToken_setTokens a _ w2 Hkeys)|].
  split; [|unfold w3; rewrite Hl3, Hl2, Hl1; reflexivity].
  unfold w3. rewrite localStorage_setTokens. unfold JS.if_truthy, JS.or_else.
  destruct (tok_refreshToken (resp_data rr)) as [b|]; [destruct (JS.truthy b)|].
  - rewrite lookup_insert_eq. reflexivity.
  - rewrite lookup_insert_ne by exact Hkeys.
    change (localStorage w2 !! refresh_token_key) with (getRefreshToken w2).
    congruence.
  - rewrite lookup_insert_ne by exact Hkeys.
    change (localStorage w2 !! refresh_token_key) with (getRefreshToken w2).
    congruence.
Qed.

Lemma Run_storage_frame (T : ResponseType) (c : RequestConfig) (w w' : World)
    (o : Outcome (AxiosResponse (payload T))) :
  Run T c w o w' ->
  (forall k, k <> jwt_storage_key -> k <> refresh_token_key ->
     localStorage w' !! k = localStorage w !! k) /\
  (location_href w' = location_href w \/
   (location_href w' = "/login" /\ getToken w' = None /\
    getRefreshToken w' = None /\ exists e, o = Rejected e)).
Proof.
  intros Hrun.
  induction Hrun as
      [c w resp w1 Ht | c w failure w1 Ht Hw | c w failure w1 Ht Hw Hrt
      | c w failure w1 rt failure2 w2 Ht Hw Hrt Hne Ht2
      | c w failure w1 rt rr w2 o' w'' Ht Hw Hrt Hne Ht2 Hrun2 IH];
    destruct (transport_frame _ _ _ _ _ Ht) as (Hls & Hl & _).
  - split; [intros k _ _; rewrite Hls; reflexivity | left; exact Hl].
  - split; [intros k _ _; rewrite Hls; reflexivity | left; exact Hl].
  - split.
    + intros k Hj Hr.
      change (localStorage (with_location_href "/login" (clearTokens w1)))
        with (localStorage (clearTokens w1)).
      rewrite localStorage_other_key_clearTokens by assumption.
      rewrite Hls. reflexivity.
    + right. split; [reflexivity|].
      split; [apply (getToken_clearTokens w1)|].
      split; [apply (getRefreshToken_clearTokens w1) | eauto].
  - destruct (transport_frame _ _ _ _ _ Ht2) as (Hls2 & _).
    split.
    + intros k Hj Hr.
      change (localStorage (with_location_href "/login" (clearTokens w2)))
        with (localStorage (clearTokens w2)).
      rewrite localStorage_other_key_clearTokens by assumption.
      rewrite Hls2, Hls. reflexivity.
    + right. split; [reflexivity|].
      split; [apply (getToken_clearTokens w2)|].
      split; [apply (getRefreshToken_clearTokens w2) | eauto].
  - destruct (transport_frame _ _ _ _ _ Ht2) as (Hls2 & Hl2 & _).
    destruct (setTokens_frame (tok_accessToken (resp_data rr))
                (tok_refreshToken (resp_data rr)) w2) as (Hl3 & _).
    destruct IH as [IHk IHl]. split.
    + intros k Hj Hr. rewrite IHk by assumption.
      rewrite localStorage_other_key_setTokens by assumption.
      rewrite Hls2, Hls. reflexivity.
    + destruct IHl as [IHl | IHl]; [left | right; exact IHl].
      rewrite IHl, Hl3, Hl2, Hl. reflexivity.
Qed.

(** X10: what a call of the client never does. Whatever the backend
    answers, a call leaves every localStorage key other than the two token
    keys as it was, writes nothing to the console and shows no toast; and it
    either leaves the location alone, or sets it to /login, and then it has
    rejected and both tokens are gone. *)
Theorem client_touches_only_the_token_keys (T : ResponseType)
    (c : RequestConfig) (w : World) :
  exists o w',
    apiClient T c w = Some (o, w') /\
    (forall k, k <> jwt_storage_key -> k <> refresh_token_key ->
       localStorage w' !! k = localStorage w !! k) /\
    console_error w' = console_error w /\
    toasts w' = toasts w /\
    (location_href w' = location_href w \/
     (location_href w' = "/login" /\ getToken w' = None /\
      getRefreshToken w' = None /\ exists e, o = Rejected e)).
Proof.
  destruct (apiClient_run T c w) as (o & w' & Heq & Hrun).
  destruct (Run_storage_frame T c w w' o Hrun) as [Hk Hl].
  destruct (Run_frame T c w w' o Hrun) as [Hc Ht].
  exists o, w'. auto.
Qed.

(** X11: with no token in the store the client is inert. A call sends
    exactly the config it was given, once, with no Authorization added and
    no refresh call; the store stays as it was; the call resolves, or rejects
    with a normalized ApiError, or (on a 401) rejects with
    "No refresh token available" and sets the location to /login. It never
    rejects with a transport error. *)
Theorem client_without_tokens_is_inert (T : ResponseType) (c : RequestConfig)
    (w : World) :
  getToken w = None ->
  getRefreshToken w = None ->
  exists o w',
    apiClient T c w = Some (o, w') /\
    network w' = network w ++ [ViaApiClient c] /\
    localStorage w' = localStorage w /\
    match o with
    | Resolved _ => location_href w' = location_href w
    | Rejected (ThrownApi _) => location_href w' = location_href w
    | Rejected (ThrownError m) =>
      m = "No refresh token available" /\ location_href w' = "/login"
    | Rejected (ThrownAxios _) => False
    end.
Proof.
  intros Ha Hr.
  destruct (apiClient_run T c w) as (o & w' & Heq & Hrun).
  exists o, w'. split; [exact Heq|].
  assert (Hc : requestInterceptor c w = c).
  { unfold requestInterceptor. rewrite Ha. reflexivity. }
  split; [|split; [exact (Run_empty_store T c w w' o Ha Hr Hrun)|]].
  - destruct Hrun as
        [resp w1 Ht | failure w1 Ht Hw | failure w1 Ht Hw Hrt
        | failure w1 rt failure2 w2 Ht Hw Hrt Hne Ht2
        | failure w1 rt rr w2 o' w'' Ht Hw Hrt Hne Ht2 Hrun2];
      destruct (transport_getToken _ _ _ _ _ Ht) as [_ Hr1];
      destruct (transport_frame _ _ _ _ _ Ht) as (_ & _ & _ & _ & Hn);
      rewrite Hc in Hn; try exact Hn; congruence.
  - destruct Hrun as
        [resp w1 Ht | failure w1 Ht Hw | failure w1 Ht Hw Hrt
        | failure w1 rt failure2 w2 Ht Hw Hrt Hne Ht2
        | failure w1 rt rr w2 o' w'' Ht Hw Hrt Hne Ht2 Hrun2];
      destruct (transport_getToken _ _ _ _ _ Ht) as [_ Hr1];
      destruct (transport_frame _ _ _ _ _ Ht) as (_ & Hl & _);
      try exact Hl; try congruence.
    split; reflexivity.
Qed.

(** X12: the refresh call is not sent where the client sends its
    requests unless VITE_API_BASE_URL is set: set to a non-empty value, the
    refresh URL is the client's base URL followed by /auth/refresh-token;
    unset, the client falls back to http://localhost:3000/api while the
    refresh URL is the text undefined/auth/refresh-token. *)
Theorem refresh_url_and_base_url :
  (forall b, VITE_API_BASE_URL = Some b -> b <> "" ->
     refresh_url = baseURL +:+ "/auth/refresh-token") /\
  (VITE_API_BASE_URL = None ->
     baseURL = "http://localhost:3000/api" /\
     refresh_url = "undefined/auth/refresh-token" /\
     refresh_url <> baseURL +:+ "/auth/refresh-token").
Proof.
  unfold refresh_url, baseURL. split.
  - intros b -> Hb. simpl. apply truthy_true in Hb. rewrite Hb. reflexivity.
  - intros ->. simpl. split; [reflexivity|]. split; [reflexivity | discriminate].
Qed.

End Interceptors.


Lemma failed_refresh_forces_logout_witness :
  let w := Sample.world (backend := Sample.locked) Sample.loggedIn tt in
  exists e w',
    apiClient (env := Sample.defaults) TUser Sample.profileRequest w
      = Some (Rejected (ThrownAxios e), w') /\
    url (config e) = "undefined/auth/refresh-token" /\
    refresh_calls (network w') = 1 /\
    api_calls (network w') = 1 /\
    getToken (env := Sample.defaults) w' = None /\
    location_href w' = "/login".
Proof.
  intros w.
  edestruct (failed_refresh_forces_logout (env := Sample.defaults)
               TUser Sample.profileRequest w)
    as (w' & Heq & Hn & Ha & _ & Hl & _).
  - reflexivity.
  - vm_compute. reflexivity.
  - reflexivity.
  - reflexivity.
  - vm_compute. reflexivity.
  - discriminate.
  - vm_compute. reflexivity.
  - eexists _, w'. split; [exact Heq|]. split; [reflexivity|].
    rewrite Hn. split; [reflexivity|]. split; [reflexivity|].
    split; [exact Ha | exact Hl].
Defined.

Lemma successful_refresh_is_persisted_witness :
  let w := Sample.world (backend := Sample.expired) Sample.loggedIn tt in
  exists o w',
    apiClient (env := Sample.defaults) TUser Sample.profileRequest w = Some (o, w') /\
    getToken (env := Sample.defaults) w' = Some "access-2" /\
    getRefreshToken (env := Sample.defaults) w' = Some "refresh-2" /\
    location_href w' = "/".
Proof.
  intros w.
  edestruct (successful_refresh_is_persisted (env := Sample.defaults)
               TUser Sample.profileRequest w)
    as (o & w' & Heq & Ha & Hr & Hl).
  - discriminate.
  - reflexivity.
  - vm_compute. reflexivity.
  - reflexivity.
  - reflexivity.
  - vm_compute. reflexivity.
  - discriminate.
  - vm_compute. reflexivity.
  - exists o, w'. split; [exact Heq|]. split; [exact Ha|].
    split; [exact Hr | exact Hl].
Defined.

Lemma client_without_tokens_is_inert_witness :
  let w := Sample.world (backend := Sample.locked) ∅ tt in
  exists w',
    apiClient (env := Sample.defaults) TUser Sample.profileRequest w
      = Some (Rejected (ThrownError "No refresh token available"), w') /\
    network w' = [ViaApiClient Sample.profileRequest] /\
    localStorage w' = ∅.
Proof.
  intros w.
  destruct (client_without_tokens_is_inert (env := Sample.defaults)
              TUser Sample.profileRequest w eq_refl eq_refl)
    as (o & w' & Heq & Hn & Hls & Ho).
  exists w'. split; [|split; [exact Hn | exact Hls]].
  rewrite Heq. vm_compute in Heq. injection Heq as <- _. reflexivity.
Defined.

Lemma refresh_url_and_base_url_witness :
  refresh_url (env := Fixtures.configured)
  = "https://api.example.com/auth/refresh-token" /\
  refresh_url (env := Sample.defaults) = "undefined/auth/refresh-token".
Proof.
  destruct (refresh_url_and_base_url (env := Fixtures.configured)) as [Hset _].
  destruct (refresh_url_and_base_url (env := Sample.defaults)) as [_ Hunset].
  split.
  - rewrite (Hset "https://api.example.com" eq_refl); [reflexivity | discriminate].
  - exact (proj1 (proj2 (Hunset eq_refl))).
Defined.

(** ** Session context, guards and the logout button together *)

Section SessionAndGuards.
Context {env : ImportMetaEnv} {backend : Backend}.

(** X13: refreshToken() re-fetches the profile and never touches
    isLoading. If the fetch resolves, the user is replaced by the fetched
    one and the world is the one the fetch left; if it rejects, the same
    error is rethrown with both tokens removed and the user null, so the
    session is not authenticated. *)
Theorem refreshToken_outcome (st : AuthState) (w : World) :
  exists o st' w',
    AuthProvider.refreshToken st w = Some (o, st', w') /\
    isLoading st' = isLoading st /\
    match o with
    | Resolved _ =>
      exists userData,
        AuthService.getProfile w = Some (Resolved userData, w') /\
        user st' = Some userData
    | Rejected error =>
      (exists w1, AuthService.getProfile w = Some (Rejected error, w1) /\
                  w' = clearTokens w1) /\
      user st' = None /\
      getToken w' = None /\
      getRefreshToken w' = None /\
      AuthProvider.isAuthenticated st' w' = false
    end.
Proof.
  unfold AuthProvider.refreshToken, AuthService.getProfile, get.
  destruct (apiClient_run TUser
              {| method := "get"; url := "/auth/profile"; data := NoData;
                 headers := Some {| Authorization := None |}; _retry := false |} w)
    as (o & w1 & Heq & _).
  rewrite Heq. destruct o as [resp|error]; simpl.
  - eexists _, _, _. split; [reflexivity|]. split; [reflexivity|].
    eexists. split; reflexivity.
  - eexists _, _, _. split; [reflexivity|]. split; [reflexivity|].
    split; [eexists; split; reflexivity|].
    split; [reflexivity|].
    split; [apply getToken_clearTokens|].
    split; [apply getRefreshToken_clearTokens | reflexivity].
Qed.

(** X14: after logout() every guarded page turns the visitor away. From
    any state and with any backend, the context that results from logout
    makes ProtectedRoute navigate to its redirectTo (/login by default) and
    RoleGuard navigate to /login, both remembering the current location and
    replacing the history entry; neither shows its children or a loading
    page. *)
Theorem guards_redirect_after_logout {Node} (st : AuthState) (w : World)
    (location : string) (redirect : option string) (page : Node)
    (props : RoleGuardProps Node) :
  exists st' w',
    AuthProvider.logout st w = Some (Resolved tt, st', w') /\
    ProtectedRoute (AuthProvider.contextValue st' w') location redirect page
    = Navigate (default "/login" redirect) (Some location) true /\
    RoleGuard (AuthProvider.contextValue st' w') location props
    = Navigate "/login" (Some location) true.
Proof.
  unfold AuthProvider.logout.
  destruct (AuthService.logout w) as [[[m|error] w1]|] eqn:Hout.
  - eexists _, _. split; [reflexivity|]. split; reflexivity.
  - eexists _, _. split; [reflexivity|]. split; reflexivity.
  - unfold AuthService.logout, post in Hout.
    destruct (apiClient_run TMessage
                {| method := "post"; url := "/auth/logout"; data := NoData;
                   headers := Some {| Authorization := None |}; _retry := false |} w)
      as (o & w1 & Heq & _).
    rewrite Heq in Hout. destruct o; discriminate.
Qed.

(** X15: the guards around start-up. In the initial state both guards
    show their loading page, whatever the store holds. Once initializeAuth
    has run they never do: ProtectedRoute shows the page exactly when a user
    was set and a non-empty access token is stored, and navigates to its
    redirectTo otherwise; with no access token stored at start-up it
    navigates. *)
Theorem guards_around_initializeAuth {Node} (w : World) (location : string)
    (redirect : option string) (page : Node) (props : RoleGuardProps Node) :
  ProtectedRoute (AuthProvider.contextValue AuthProvider.initial w)
    location redirect page
  = LoadingPage "Checking authentication..." /\
  RoleGuard (AuthProvider.contextValue AuthProvider.initial w) location props
  = LoadingPage "Checking permissions..." /\
  exists st' w',
    AuthProvider.initializeAuth AuthProvider.initial w = Some (st', w') /\
    ((ProtectedRoute (AuthProvider.contextValue st' w') location redirect page
      = Children page /\
      user st' <> None /\ JS.truthy_opt (getToken w') = true) \/
     (ProtectedRoute (AuthProvider.contextValue st' w') location redirect page
      = Navigate (default "/login" redirect) (Some location) true /\
      (user st' = None \/ JS.truthy_opt (getToken w') = false))) /\
    (JS.truthy_opt (getToken w) = false ->
     ProtectedRoute (AuthProvider.contextValue st' w') location redirect page
     = Navigate (default "/login" redirect) (Some location) true) /\
    (forall message,
       RoleGuard (AuthProvider.contextValue st' w') location props
       <> LoadingPage message).
Proof.
  split; [reflexivity|]. split; [reflexivity|].
  assert (Hinit : exists st' w',
            AuthProvider.initializeAuth AuthProvider.initial w = Some (st', w') /\
            isLoading st' = false /\
            (JS.truthy_opt (getToken w) = false ->
             user st' = None)).
  { unfold AuthProvider.initializeAuth, JS.if_truthy.
    destruct (getToken w) as [t|] eqn:Ht; simpl.
    - destruct (JS.truthy t).
      + unfold AuthService.getProfile, get.
        destruct (apiClient_run TUser
                    {| method := "get"; url := "/auth/profile"; data := NoData;
                       headers := Some {| Authorization := None |};
                       _retry := false |} w)
          as (o & w1 & Heq & _).
        rewrite Heq. destruct o; simpl; eexists _, _;
          (split; [reflexivity|]); split; try reflexivity; discriminate.
      + eexists _, _. split; [reflexivity|]. split; reflexivity.
    - eexists _, _. split; [reflexivity|]. split; reflexivity. }
  destruct Hinit as (st' & w' & Heq & Hl & Hnone).
  exists st', w'. split; [exact Heq|].
  unfold ProtectedRoute, RoleGuard, AuthProvider.contextValue,
    AuthProvider.isAuthenticated. simpl. rewrite Hl.
  split; [|split].
  - destruct (user st') as [u|]; simpl.
    + destruct (JS.truthy_opt (getToken w')); simpl.
      * left. split; [reflexivity|]. split; [discriminate | reflexivity].
      * right. split; [reflexivity | right; reflexivity].
    + right. split; [reflexivity | left; reflexivity].
  - intros Hfalsy. rewrite (Hnone Hfalsy). reflexivity.
  - intros message.
    destruct (match user st' with Some _ => true | None => false end
              && JS.truthy_opt (getToken w')); simpl; [|discriminate].
    destruct (user st') as [u|]; [|apply not_eq_sym; intros H;
      symmetry in H; revert H; unfold refused, JS.if_truthy;
      destruct (redirectTo props) as [t|]; [destruct (JS.truthy t)|]; discriminate].
    destruct (role u) as [r|].
    + destruct (JS.if_truthy (requiredRole props) _ false);
        [unfold refused, JS.if_truthy;
         destruct (redirectTo props) as [t|]; [destruct (JS.truthy t)|]; discriminate|].
      destruct (0 <? length (default [] (requiredPermissions props)))%nat;
        [|discriminate].
      destruct (role_requireAll props);
        match goal with
        | |- (if negb ?b then _ else _) <> _ => destruct b; simpl
        end;
        try discriminate;
        unfold refused, JS.if_truthy;
        destruct (redirectTo props) as [t|]; try destruct (JS.truthy t); discriminate.
    + unfold refused, JS.if_truthy.
      destruct (redirectTo props) as [t|]; [destruct (JS.truthy t)|]; discriminate.
Qed.

(** X16: the logout button always ends on the login page. From any
    state and with any backend, handleLogout finishes with isLoggingOut false
    and the route /login, the user null and both tokens removed; its own
    catch never runs: the console gains no entry labelled "Logout failed:". *)
Theorem handleLogout_always_lands_on_login (h : HeaderState) (st : AuthState)
    (w : World) :
  exists w',
    Header.handleLogout h st w
    = Some ({| isLoggingOut := false; route := "/login" |},
            {| user := None; isLoading := false |}, w') /\
    getToken w' = None /\
    getRefreshToken w' = None /\
    (exists entries,
       console_error w' = console_error w ++ entries /\
       (length entries <= 1)%nat /\
       forall label e, In (label, e) entries -> label = "Logout API call failed:").
Proof.
  unfold Header.handleLogout, AuthProvider.logout, AuthService.logout, post.
  destruct (apiClient_run TMessage
              {| method := "post"; url := "/auth/logout"; data := NoData;
                 headers := Some {| Authorization := None |}; _retry := false |} w)
    as (o & w1 & Heq & Hrun).
  rewrite Heq. destruct (Run_frame _ _ _ _ _ Hrun) as [Hconsole _].
  destruct o as [resp|error]; simpl.
  - eexists. split; [reflexivity|].
    split; [apply (getToken_clearTokens w1)|].
    split; [apply (getRefreshToken_clearTokens w1)|].
    exists []. simpl. rewrite app_nil_r.
    split; [exact Hconsole|]. split; [lia | intros label e []].
  - eexists. split; [reflexivity|].
    split; [apply (getToken_clearTokens
                     (AuthProvider.console_log_error "Logout API call failed:" error w1))|].
    split; [apply (getRefreshToken_clearTokens
                     (AuthProvider.console_log_error "Logout API call failed:" error w1))|].
    exists [("Logout API call failed:", error)]. simpl. rewrite Hconsole.
    split; [reflexivity|]. split; [lia|].
    intros label e [[= <- _] | []]. reflexivity.
Qed.

End SessionAndGuards.

(** ** Selections and toggles *)

Lemma isUserSelected_In (sel : list User) (u : User) :
  UserTable.isUserSelected sel u = true <-> In (id u) (map id sel).
Proof.
  unfold UserTable.isUserSelected, JS.some. rewrite existsb_exists, in_map_iff.
  split.
  - intros (v & Hv & Heq). apply Z.eqb_eq in Heq. eauto.
  - intros (v & Heq & Hv). exists v. split; [exact Hv | apply Z.eqb_eq, Heq].
Qed.

Lemma filter_other_ids (sel : list User) (u : User) :
  map id (List.filter (fun s => negb (Z.eqb (id s) (id u))) sel)
  = List.filter (fun n => negb (Z.eqb n (id u))) (map id sel).
Proof.
  induction sel as [|s sel IH]; simpl; [reflexivity|].
  destruct (negb (Z.eqb (id s) (id u))); simpl; rewrite IH; reflexivity.
Qed.

Lemma handleUserSelect_ids (u : User) (prev : list User) :
  map id (UserList.handleUserSelect u prev)
  = if UserTable.isUserSelected prev u
    then List.filter (fun n => negb (Z.eqb n (id u))) (map id prev)
    else map id prev ++ [id u].
Proof.
  unfold UserList.handleUserSelect, UserTable.isUserSelected.
  destruct (JS.some prev _).
  - apply filter_other_ids.
  - apply map_app.
Qed.

(** X17: clicking a user's checkbox flips that user and no other. After
    handleUserSelect(u) the user u is selected exactly if it was not before,
    and a user with another id is selected exactly if it was before. *)
Theorem handleUserSelect_flips_one (u v : User) (prev : list User) :
  UserTable.isUserSelected (UserList.handleUserSelect u prev) u
  = negb (UserTable.isUserSelected prev u) /\
  (id v <> id u ->
   UserTable.isUserSelected (UserList.handleUserSelect u prev) v
   = UserTable.isUserSelected prev v).
Proof.
  split.
  - apply bool_eq_iff. rewrite isUserSelected_In, handleUserSelect_ids.
    destruct (UserTable.isUserSelected prev u) eqn:Hsel; simpl.
    + rewrite List.filter_In, Z.eqb_refl. simpl. split; [intros [_ H] | ]; discriminate.
    + rewrite in_app_iff. simpl. split; auto.
  - intros Hne. apply bool_eq_iff.
    rewrite !isUserSelected_In, handleUserSelect_ids.
    destruct (UserTable.isUserSelected prev u).
    + rewrite List.filter_In, negb_true_iff, Z.eqb_neq. tauto.
    + rewrite in_app_iff. simpl. split; [intros [H | [H | []]] | auto]; congruence.
Qed.

Lemma handleUserSelect_flips_one_witness :
  UserTable.isUserSelected
    (UserList.handleUserSelect Sample.editor [Fixtures.other 8; Sample.editor])
    (Fixtures.other 8) = true.
Proof.
  rewrite (proj2 (handleUserSelect_flips_one Sample.editor (Fixtures.other 8)
                    [Fixtures.other 8; Sample.editor])).
  - reflexivity.
  - discriminate.
Defined.

(** X18: the selection never holds the same user id twice, and a click
    is undone by a second click. If the selected ids are distinct they stay
    distinct after handleUserSelect; and selecting a user who was not
    selected and clicking again gives back exactly the list there was. *)
Theorem handleUserSelect_keeps_ids_distinct (u : User) (prev : list User) :
  (List.NoDup (map id prev) ->
   List.NoDup (map id (UserList.handleUserSelect u prev))) /\
  (UserTable.isUserSelected prev u = false ->
   UserList.handleUserSelect u (UserList.handleUserSelect u prev) = prev).
Proof.
  split.
  - intros Hnd. rewrite handleUserSelect_ids.
    destruct (UserTable.isUserSelected prev u) eqn:Hsel.
    + apply List.NoDup_filter. exact Hnd.
    + apply List.NoDup_app; [exact Hnd | |].
      * constructor; [intros [] | constructor].
      * intros n Hn [<- | []].
        apply isUserSelected_In in Hn. congruence.
  - intros Hsel. unfold UserList.handleUserSelect at 2.
    change (JS.some prev (fun selected => Z.eqb (id selected) (id u)))
      with (UserTable.isUserSelected prev u).
    rewrite Hsel. unfold UserList.handleUserSelect.
    unfold JS.some. rewrite existsb_app. simpl. rewrite Z.eqb_refl, orb_true_r.
    rewrite List.filter_app. simpl. rewrite Z.eqb_refl. simpl. rewrite app_nil_r.
    apply List.forallb_filter_id. apply forallb_forall. intros s Hs.
    apply negb_true_iff, Z.eqb_neq. intros Heq.
    assert (Hin : UserTable.isUserSelected prev u = true).
    { apply isUserSelected_In. rewrite <- Heq. apply in_map. exact Hs. }
    congruence.
Qed.

Lemma handleUserSelect_keeps_ids_distinct_witness :
  List.NoDup (map id [Fixtures.other 8; Sample.editor]) /\
  List.NoDup (map id (UserList.handleUserSelect Fixtures.admin
                   [Fixtures.other 8; Sample.editor])) /\
  UserList.handleUserSelect (Fixtures.other 9)
    (UserList.handleUserSelect (Fixtures.other 9) [Fixtures.other 8; Sample.editor])
  = [Fixtures.other 8; Sample.editor].
Proof.
  assert (Hnd : List.NoDup (map id [Fixtures.other 8; Sample.editor])).
  { simpl. constructor; [intros [H | []]; discriminate|].
    constructor; [intros [] | constructor]. }
  split; [exact Hnd|]. split.
  - exact (proj1 (handleUserSelect_keeps_ids_distinct Fixtures.admin
                    [Fixtures.other 8; Sample.editor]) Hnd).
  - exact (proj2 (handleUserSelect_keeps_ids_distinct (Fixtures.other 9)
                    [Fixtures.other 8; Sample.editor]) eq_refl).
Defined.

(** X19: the header checkbox of the user table. On a non-empty table a
    click turns "all selected" into its opposite: it selects every listed
    user when not all were selected and clears the selection when all were;
    on an empty table it leaves the selection empty. After a click the
    checkbox is never indeterminate. *)
Theorem headerCheckbox_toggles_all (users selectedUsers : list User) :
  (users <> [] ->
   UserTable.isAllSelected users
     (UserTable.headerCheckbox_onChange users selectedUsers)
   = negb (UserTable.isAllSelected users selectedUsers)) /\
  (UserTable.isAllSelected users selectedUsers = false -> users <> [] ->
   UserTable.headerCheckbox_onChange users selectedUsers = users) /\
  (users = [] -> UserTable.headerCheckbox_onChange users selectedUsers = []) /\
  UserTable.isPartiallySelected users
    (UserTable.headerCheckbox_onChange users selectedUsers) = false.
Proof.
  unfold UserTable.headerCheckbox_onChange, UserTable.isPartiallySelected,
    UserList.handleSelectAll, UserList.handleClearSelection.
  destruct users as [|u users].
  - split; [congruence|]. split; [congruence|]. split.
    + intros _. unfold UserTable.isAllSelected. simpl.
      destruct (length selectedUsers =? 0)%nat; reflexivity.
    + unfold UserTable.isAllSelected. simpl.
      destruct (length selectedUsers =? 0)%nat; reflexivity.
  - unfold UserTable.isAllSelected. cbn [length].
    destruct (length selectedUsers =? S (length users))%nat eqn:Hlen; cbn.
    + repeat split; try discriminate; reflexivity.
    + rewrite Nat.eqb_refl.
      repeat split; try discriminate; reflexivity.
Qed.

Lemma headerCheckbox_toggles_all_witness :
  UserTable.headerCheckbox_onChange [Fixtures.other 8; Sample.editor] [Sample.editor]
  = [Fixtures.other 8; Sample.editor].
Proof.
  refine (proj1 (proj2 (headerCheckbox_toggles_all
            [Fixtures.other 8; Sample.editor] [Sample.editor])) eq_refl _).
  discriminate.
Defined.

Lemma toggle_filter_id (x : string) (l : list string) :
  ~ In x l -> List.filter (fun c => negb (String.eqb c x)) l = l.
Proof.
  intros Hx. apply List.forallb_filter_id. apply forallb_forall.
  intros c Hc. apply negb_true_iff, String.eqb_neq. congruence.
Qed.

(** X20: expanding categories and picking role filters use one toggle.
    toggleCategory and handleRoleToggle compute the same list; toggling x
    makes x a member exactly if it was not, leaves the membership of every
    other entry alone, keeps a duplicate-free list duplicate-free, and
    toggling an absent x twice gives back the list there was. *)
Theorem toggleCategory_flips_one (x y : string) (prev : list string) :
  handleRoleToggle x prev = toggleCategory x prev /\
  JS.includes (toggleCategory x prev) x = negb (JS.includes prev x) /\
  (y <> x -> JS.includes (toggleCategory x prev) y = JS.includes prev y) /\
  (List.NoDup prev -> List.NoDup (toggleCategory x prev)) /\
  (JS.includes prev x = false -> toggleCategory x (toggleCategory x prev) = prev).
Proof.
  split; [reflexivity|].
  unfold toggleCategory.
  destruct (JS.includes prev x) eqn:Hin.
  - split; [|split; [|split]].
    + apply bool_eq_iff. rewrite includes_In, List.filter_In, String.eqb_refl.
      simpl. split; [intros [_ H] | ]; discriminate.
    + intros Hne. apply bool_eq_iff.
      rewrite !includes_In, List.filter_In, negb_true_iff, String.eqb_neq. tauto.
    + intros Hnd. apply List.NoDup_filter. exact Hnd.
    + discriminate.
  - assert (Hnot : ~ In x prev).
    { intros H. apply includes_In in H. congruence. }
    split; [|split; [|split]].
    + apply includes_In. rewrite in_app_iff. simpl. auto.
    + intros Hne. apply bool_eq_iff. rewrite !includes_In, in_app_iff. simpl.
      split; [intros [H | [H | []]] | auto]; congruence.
    + intros Hnd. apply List.NoDup_app; [exact Hnd | |].
      * constructor; [intros [] | constructor].
      * intros c Hc [<- | []]. contradiction.
    + intros _.
      assert (Hnow : JS.includes (prev ++ [x]) x = true).
      { apply includes_In. rewrite in_app_iff. simpl. auto. }
      rewrite Hnow. rewrite List.filter_app. simpl. rewrite String.eqb_refl.
      simpl. rewrite app_nil_r. apply toggle_filter_id. exact Hnot.
Qed.

Lemma toggleCategory_flips_one_witness :
  JS.includes (toggleCategory "Users" ["Roles"; "Users"]) "Roles" = true /\
  toggleCategory "Audit" (toggleCategory "Audit" ["Roles"; "Users"])
  = ["Roles"; "Users"].
Proof.
  destruct (toggleCategory_flips_one "Users" "Roles" ["Roles"; "Users"])
    as (_ & _ & Hother & _).
  destruct (toggleCategory_flips_one "Audit" "Roles" ["Roles"; "Users"])
    as (_ & _ & _ & _ & Htwice).
  split.
  - rewrite Hother; [reflexivity | discriminate].
  - apply Htwice. reflexivity.
Defined.

(** ** Password strength *)

(** X21: score and feedback account for the five rules between them:
    the score is the number of rules met, the feedback has one message per
    rule missed, and the password is valid exactly when at most one message
    is given. *)
Theorem password_score_counts_rules (password : Helpers.jsstring) :
  let result := Helpers.validatePasswordStrength password in
  (Helpers.score result + Z.of_nat (length (Helpers.feedback result)) = 5)%Z /\
  (0 <= Helpers.score result <= 5)%Z /\
  Helpers.isValid result = (length (Helpers.feedback result) <=? 1)%nat /\
  (Helpers.score result = 5%Z <-> Helpers.feedback result = []).
Proof.
  unfold Helpers.validatePasswordStrength, Helpers.check.
  destruct (8 <=? length password)%nat, (Helpers.test Helpers.lower password),
    (Helpers.test Helpers.upper password), (Helpers.test Helpers.digit password),
    (Helpers.test Helpers.special password);
    cbn; (split; [reflexivity|]); (split; [lia|]); (split; [reflexivity|]);
    split; intros H; try reflexivity; discriminate H.
Qed.

(** X22: length is one rule among five, not a requirement. A password
    with a lowercase letter, an uppercase letter, a digit and a special
    character is valid whatever its length; a valid password has at least 8
    code units or all four kinds of character; and a password with neither a
    digit nor a special character is never valid. *)
Theorem password_length_is_not_required (password : Helpers.jsstring) :
  let result := Helpers.validatePasswordStrength password in
  (Helpers.test Helpers.lower password = true ->
   Helpers.test Helpers.upper password = true ->
   Helpers.test Helpers.digit password = true ->
   Helpers.test Helpers.special password = true ->
   Helpers.isValid result = true /\
   ((length password < 8)%nat ->
    Helpers.score result = 4%Z /\
    Helpers.feedback result = ["Password must be at least 8 characters long"])) /\
  (Helpers.isValid result = true ->
   (8 <= length password)%nat \/
   (Helpers.test Helpers.lower password = true /\
    Helpers.test Helpers.upper password = true /\
    Helpers.test Helpers.digit password = true /\
    Helpers.test Helpers.special password = true)) /\
  (Helpers.test Helpers.digit password = false ->
   Helpers.test Helpers.special password = false ->
   Helpers.isValid result = false).
Proof.
  unfold Helpers.validatePasswordStrength, Helpers.check.
  destruct (8 <=? length password)%nat eqn:Hlen.
  - apply Nat.leb_le in Hlen.
    destruct (Helpers.test Helpers.lower password),
      (Helpers.test Helpers.upper password), (Helpers.test Helpers.digit password),
      (Helpers.test Helpers.special password); cbn;
      repeat split; intros; try discriminate; try lia; auto.
  - apply Nat.leb_gt in Hlen.
    destruct (Helpers.test Helpers.lower password),
      (Helpers.test Helpers.upper password), (Helpers.test Helpers.digit password),
      (Helpers.test Helpers.special password); cbn;
      repeat split; intros; try discriminate; try lia; auto.
Qed.

Lemma password_length_is_not_required_witness :
  (* the code units of aB3! *)
  let password := [97; 66; 51; 33]%N in
  Helpers.isValid (Helpers.validatePasswordStrength password) = true /\
  Helpers.feedback (Helpers.validatePasswordStrength password)
  = ["Password must be at least 8 characters long"].
Proof.
  intros password.
  destruct (password_length_is_not_required password) as (Hfour & _).
  destruct (Hfour eq_refl eq_refl eq_refl eq_refl) as [Hvalid Hshort].
  split; [exact Hvalid|]. apply Hshort. simpl. lia.
Defined.

(** ** A session's token on the wire *)

Section TokenOnTheWire.
Context {env : ImportMetaEnv} {backend : Backend}.

Lemma Run_without_tokens_network (T : ResponseType) (c : RequestConfig)
    (w w' : World) (o : Outcome (AxiosResponse (payload T))) :
  getToken w = None ->
  getRefreshToken w = None ->
  Run T c w o w' ->
  network w' = network w ++ [ViaApiClient c].
Proof.
  intros Ha Hr Hrun.
  assert (Hc : requestInterceptor c w = c).
  { unfold requestInterceptor. rewrite Ha. reflexivity. }
  destruct Hrun as
      [resp w1 Ht | failure w1 Ht Hw | failure w1 Ht Hw Hrt
      | failure w1 rt failure2 w2 Ht Hw Hrt Hne Ht2
      | failure w1 rt rr w2 o' w'' Ht Hw Hrt Hne Ht2 Hrun2];
    destruct (transport_getToken _ _ _ _ _ Ht) as [_ Hr1];
    destruct (transport_frame _ _ _ _ _ Ht) as (_ & _ & _ & _ & Hn);
    rewrite Hc in Hn; try exact Hn; congruence.
Qed.

(** X23: a token is not used once the session is logged out. After
    logout(), from any state and with any backend, the next call of the
    client sends the config exactly as it was given (no Authorization added
    from the old session), sends it once and calls no refresh endpoint, and
    the store still holds no token afterwards. *)
Theorem no_token_on_the_wire_after_logout (st : AuthState) (w : World)
    (T : ResponseType) (c : RequestConfig) :
  exists st' w1 o w2,
    AuthProvider.logout st w = Some (Resolved tt, st', w1) /\
    apiClient T c w1 = Some (o, w2) /\
    network w2 = network w1 ++ [ViaApiClient c] /\
    getToken w2 = None /\
    getRefreshToken w2 = None.
Proof.
  assert (Hout : exists st' w1,
            AuthProvider.logout st w = Some (Resolved tt, st', w1) /\
            getToken w1 = None /\ getRefreshToken w1 = None).
  { unfold AuthProvider.logout, AuthService.logout, post.
    destruct (apiClient_run TMessage
                {| method := "post"; url := "/auth/logout"; data := NoData;
                   headers := Some {| Authorization := None |}; _retry := false |} w)
      as (o & w1 & Heq & _).
    rewrite Heq. destruct o as [resp|error]; simpl; eexists _, _;
      (split; [reflexivity|]); split.
    - apply (getToken_clearTokens w1).
    - apply (getRefreshToken_clearTokens w1).
    - apply (getToken_clearTokens
               (AuthProvider.console_log_error "Logout API call failed:" error w1)).
    - apply (getRefreshToken_clearTokens
               (AuthProvider.console_log_error "Logout API call failed:" error w1)). }
  destruct Hout as (st' & w1 & Hlogout & Ha & Hr).
  destruct (apiClient_run T c w1) as (o & w2 & Heq & Hrun).
  exists st', w1, o, w2.
  split; [exact Hlogout|]. split; [exact Heq|].
  split; [exact (Run_without_tokens_network T c w1 w2 o Ha Hr Hrun)|].
  pose proof (Run_empty_store T c w1 w2 o Ha Hr Hrun) as Hls.
  unfold getToken, getRefreshToken in *. rewrite Hls. auto.
Qed.

(** X24: a fresh login is what the next request carries. After a
    successful login that returned a non-empty access token (storage keys
    distinct), the next call of the client with a config that has headers
    sends, as its first request, Authorization: Bearer <that access token>. *)
Theorem token_on_the_wire_after_login (credentials : LoginRequest)
    (st : AuthState) (w w1 : World) (response : AuthResponse)
    (T : ResponseType) (c : RequestConfig) :
  AuthService.login credentials w = Some (Resolved response, w1) ->
  accessToken response <> "" ->
  jwt_storage_key <> refresh_token_key ->
  headers c <> None ->
  exists st' w' o w2 c1 evs,
    AuthProvider.login credentials st w = Some (Resolved tt, st', w') /\
    apiClient T c w' = Some (o, w2) /\
    network w2 = network w' ++ ViaApiClient c1 :: evs /\
    headers c1
    = Some {| Authorization := Some ("Bearer " +:+ accessToken response) |} /\
    url c1 = url c /\ method c1 = method c /\ data c1 = data c.
Proof.
  intros Hlogin Ha Hkeys Hh.
  unfold AuthProvider.login. rewrite Hlogin.
  set (w' := AuthProvider.toast_success
               (JS.or_else (Some (auth_message response)) "Login successful")
               (setTokens (accessToken response) (Some (refreshToken response)) w1)).
  assert (Htok : getToken w' = Some (accessToken response)).
  { exact (getToken_setTokens (accessToken response)
             (Some (refreshToken response)) w1 Hkeys). }
  destruct (apiClient_run T c w') as (o & w2 & Heq & Hrun).
  destruct (Run_first_event T c w' w2 o Hrun) as (evs & Hn).
  destruct (requestInterceptor_fields c w') as (Hm & Hu & Hd).
  eexists _, w', o, w2, (requestInterceptor c w'), evs.
  split; [reflexivity|]. split; [exact Heq|]. split; [exact Hn|].
  split; [|auto].
  unfold requestInterceptor. rewrite (if_truthy_true _ _ _ _ Htok Ha).
  apply headers_with_Authorization. exact Hh.
Qed.

End TokenOnTheWire.

Lemma token_on_the_wire_after_login_witness :
  let w := Sample.world (backend := Sample.healthy) ∅ tt in
  exists st' w' o w2,
    AuthProvider.login (env := Sample.defaults) Sample.credentials
      AuthProvider.initial w = Some (Resolved tt, st', w') /\
    apiClient (env := Sample.defaults) TUser Sample.profileRequest w' = Some (o, w2) /\
    exists c1 evs,
      network w2 = network w' ++ ViaApiClient c1 :: evs /\
      headers c1 = Some {| Authorization := Some "Bearer access-1" |}.
Proof.
  intros w.
  edestruct (token_on_the_wire_after_login (env := Sample.defaults)
               Sample.credentials AuthProvider.initial w)
    as (st' & w' & o & w2 & c1 & evs & Hlogin & Heq & Hn & Hh & _).
  - vm_compute. reflexivity.
  - discriminate.
  - discriminate.
  - instantiate (1 := Sample.profileRequest). discriminate.
  - exists st', w', o, w2. split; [exact Hlogin|]. split; [exact Heq|].
    exists c1, evs. split; [exact Hn | exact Hh].
Defined.
